(** * Basic-Zether client: a shallow embedding of [src/client/Client.ts]

    The client talks to three collaborators that are not part of the file:
    the ledger contract (reads and writes over the network), the module
    [./ultis] (curve arithmetic, balance decoding, proof generation) and the
    JavaScript runtime with the [ethers] and [viem] helpers.  The ledger and
    [./ultis] are records of functions below; the parts of the runtime the
    client relies on ([BigInt], [Number], [String.prototype] methods, IEEE-754
    subtraction) are written out.

    An asynchronous method becomes a computation in a small monad that
    records, in order, every call that leaves the client (ledger reads, ledger
    writes, decode and proof generation) and ends in a value or a thrown
    error. *)

From Stdlib Require Import ZArith Lia List Bool Ascii String.
From Stdlib Require Import Numbers.DecimalString DecimalZ DecimalPos.
From Stdlib Require Import Floats.SpecFloat.
Import ListNotations.

Local Open Scope string_scope.
Local Open Scope Z_scope.

(* ================================================================== *)
(** * The JavaScript runtime *)
(* ================================================================== *)

Module Js.

(** ** Thrown values *)

Inductive error : Type :=
| Error (msg : string)        (* [throw new Error(msg)] *)
| SyntaxError                 (* [BigInt(s)] on a string that is no integer literal *)
| RangeError                  (* bigint division by [0n], [repeat] of a negative count *)
| TypeError                   (* indexing [undefined] *)
| Rejected (reason : string)  (* an awaited [./ultis] promise rejected *)
| Reverted (reason : string). (* a ledger write reverted *)

Inductive outcome (A : Type) : Type :=
| Ok (a : A)
| Throw (e : error).
Arguments Ok {A} a.
Arguments Throw {A} e.

(** ** Numbers: IEEE-754 binary64 *)

Definition number : Type := spec_float.

Definition prec : Z := 53.
Definition emax : Z := 1024.

(** The double nearest to an integer (ties to even), as [Number(z)] of a
    bigint or of an integer literal computes it. *)
Definition of_Z (z : Z) : number := binary_normalize prec emax z 0 false.

(** [w] is the 53-bit mantissa of the positive integer [v]: [v] shifted
    until it has exactly 53 digits, no bit lost.  Used to state what [of_Z]
    yields on integers up to [2^53]. *)
Definition canon (v w : positive) : Prop :=
  let t := Zpos (digits2_pos v) - 53 in
  Zpos w * 2 ^ Z.max t 0 = Zpos v * 2 ^ Z.max (- t) 0.

(** [x - y] on numbers. *)
Definition sub (x y : number) : number := SFsub prec emax x y.

(** [!x] for [x : number | undefined]: [undefined], [+0], [-0] and [NaN] are
    the falsy ones. *)
Definition falsy (x : option number) : bool :=
  match x with
  | None => true
  | Some (S754_zero _) => true
  | Some S754_nan => true
  | Some _ => false
  end.

(** The integer a number denotes, when it denotes one. *)
Definition to_Z (x : number) : option Z :=
  match x with
  | S754_zero _ => Some 0
  | S754_finite s m e =>
      if 0 <=? e then Some (cond_Zopp s (Zpos m * 2 ^ e))
      else if (Zpos m) mod 2 ^ (- e) =? 0
           then Some (cond_Zopp s (Zpos m / 2 ^ (- e)))
           else None
  | _ => None
  end.

Definition Z_to_string (z : Z) : string := NilZero.string_of_int (Z.to_int z).

(** [Number.prototype.toString]: an integer of magnitude at most [2^53]
    prints as its decimal digits.  Every other finite number prints by the
    shortest round-trip algorithm, which is left to [other]. *)
Definition Number_toString (other : number -> string) (x : number) : string :=
  match x with
  | S754_nan => "NaN"
  | S754_infinity s => if s then "-Infinity" else "Infinity"
  | _ =>
      match to_Z x with
      | Some v => if Z.abs v <=? 2 ^ 53 then Z_to_string v else other x
      | None => other x
      end
  end.

(** ** Strings

    Strings are sequences of one-byte characters; the white space of
    JavaScript outside ASCII is not represented. *)

Definition isWhiteSpace (c : ascii) : bool :=
  let n := nat_of_ascii c in
  ((9 <=? n) && (n <=? 13))%nat || (n =? 32)%nat.

Fixpoint trimStart (s : string) : string :=
  match s with
  | String c s' => if isWhiteSpace c then trimStart s' else s
  | EmptyString => EmptyString
  end.

Fixpoint trimEnd (s : string) : string :=
  match s with
  | String c s' =>
      let t := trimEnd s' in
      if isWhiteSpace c && (t =? "")%string then "" else String c t
  | EmptyString => EmptyString
  end.

Definition trim (s : string) : string := trimEnd (trimStart s).

(** [s.split(sep)] for a one-character separator: never empty. *)
Fixpoint split (sep : ascii) (s : string) : list string :=
  match s with
  | EmptyString => [""]
  | String c s' =>
      if Ascii.eqb c sep then "" :: split sep s'
      else match split sep s' with
           | h :: t => String c h :: t
           | [] => [String c ""]
           end
  end.

(** [s.repeat(n)] for a count already known to be a natural number. *)
Fixpoint repeat_nat (s : string) (n : nat) : string :=
  match n with
  | O => ""
  | S n' => s ++ repeat_nat s n'
  end.

(** [s.repeat(count)]: a negative count throws. *)
Definition repeat (s : string) (count : Z) : outcome string :=
  if count <? 0 then Throw RangeError else Ok (repeat_nat s (Z.to_nat count)).

(** [s.slice(0, e)]: a negative [e] counts from the end. *)
Definition slice0 (s : string) (e : Z) : string :=
  let len := Z.of_nat (String.length s) in
  let upto := if e <? 0 then Z.max (len + e) 0 else Z.min e len in
  substring 0 (Z.to_nat upto) s.

(** [s.replace(/^0+/, "")]. *)
Fixpoint strip_leading_zeros (s : string) : string :=
  match s with
  | String "0" s' => strip_leading_zeros s'
  | _ => s
  end.

(** ** [BigInt(string)] *)

Definition digit_of (c : ascii) : option Z :=
  let n := Z.of_nat (nat_of_ascii c) in
  if (48 <=? n) && (n <=? 57) then Some (n - 48)
  else if (97 <=? n) && (n <=? 102) then Some (n - 87)
  else if (65 <=? n) && (n <=? 70) then Some (n - 55)
  else None.

(** Value of a run of digits in [radix], most significant first, on top of
    the accumulated [acc]; [None] on a character that is no digit. *)
Fixpoint digits_value (radix : Z) (s : string) (acc : Z) : option Z :=
  match s with
  | EmptyString => Some acc
  | String c s' =>
      match digit_of c with
      | Some d => if d <? radix then digits_value radix s' (acc * radix + d) else None
      | None => None
      end
  end.

(** A non-empty run of digits. *)
Definition digits1 (radix : Z) (s : string) : option Z :=
  match s with
  | EmptyString => None
  | _ => digits_value radix s 0
  end.

(** StringToBigInt: surrounding white space is dropped, the empty string is
    [0n], a decimal literal may carry a sign, the prefixed radices may not. *)
Definition StringToBigInt (s : string) : option Z :=
  match trim s with
  | EmptyString => Some 0
  | String "0" (String "x" ds) | String "0" (String "X" ds) => digits1 16 ds
  | String "0" (String "o" ds) | String "0" (String "O" ds) => digits1 8 ds
  | String "0" (String "b" ds) | String "0" (String "B" ds) => digits1 2 ds
  | String "-" ds => option_map Z.opp (digits1 10 ds)
  | String "+" ds => digits1 10 ds
  | t => digits1 10 t
  end.

Definition BigInt (s : string) : outcome Z :=
  match StringToBigInt s with
  | Some z => Ok z
  | None => Throw SyntaxError
  end.

(** [Number(string)].  Every string [BigInt] accepts is an integer literal
    of [Number] too, and its value is the double nearest to the integer (ties
    to even).  On any other string (fractions, exponents, text) the result is
    left to [other]. *)
Definition Number (other : string -> number) (s : string) : number :=
  match StringToBigInt s with
  | Some z => of_Z z
  | None => other s
  end.

(** [a / b] on bigints: truncating, and [b = 0n] throws. *)
Definition bigint_div (a b : Z) : outcome Z :=
  if b =? 0 then Throw RangeError else Ok (Z.quot a b).

End Js.

(* ================================================================== *)
(** * [toUnitsByDecimals] *)
(* ================================================================== *)

Module Units.
Import Js.

(** The run-time type of [amount : string | number | bigint]. *)
Inductive amount_t : Type :=
| AString (s : string)
| ANumber (n : number)
| ABigint (z : Z).

(** The part of [toUnitsByDecimals] below the two [typeof] tests: the
    argument is a string here.  [decimals] is an integer, as every caller of
    a decimals count passes it. *)
Definition toUnitsByDecimals_string (amount : string) (decimals : Z) : outcome Z :=
  let parts := split "." amount in
  let intPart := nth 0 parts "" in
  let fracPartRaw := nth 1 parts "" in
  match repeat "0" decimals with
  | Throw e => Throw e
  | Ok zeros =>
      let fracPart := slice0 (fracPartRaw ++ zeros) decimals in
      let normalized := strip_leading_zeros (intPart ++ fracPart) in
      BigInt (if (normalized =? "")%string then "0" else normalized)
  end.

(** [toStringOther] is the runtime's [Number.prototype.toString] outside the
    safe integers. *)
Definition toUnitsByDecimals (toStringOther : number -> string)
    (amount : amount_t) (decimals : Z) : outcome Z :=
  match amount with
  | ABigint z => Ok z
  | ANumber n =>
      let s := Number_toString toStringOther n in
      toUnitsByDecimals_string s decimals
  | AString s => toUnitsByDecimals_string s decimals
  end.

(** ** Decimal strings, for stating what the conversion computes *)

Definition is_digit (c : ascii) : bool :=
  let n := Z.of_nat (nat_of_ascii c) in (48 <=? n) && (n <=? 57).

Fixpoint is_digits (s : string) : bool :=
  match s with
  | EmptyString => true
  | String c s' => is_digit c && is_digits s'
  end.

(** The number a run of decimal digits writes, on top of [acc]. *)
Fixpoint decimal_acc (s : string) (acc : Z) : Z :=
  match s with
  | EmptyString => acc
  | String c s' => decimal_acc s' (acc * 10 + (Z.of_nat (nat_of_ascii c) - 48))
  end.

Definition decimal_value (s : string) : Z := decimal_acc s 0.

(** A fraction brought to exactly [d] digits: cut after [d] digits, or
    filled up with zeros. *)
Fixpoint fit (d : nat) (frac : string) : string :=
  match d with
  | O => ""
  | S d' =>
      match frac with
      | EmptyString => String "0" (fit d' "")
      | String c frac' => String c (fit d' frac')
      end
  end.

End Units.

(* ================================================================== *)
(** * The client *)
(* ================================================================== *)

Module Zether.
Import Js.

(** ** Data exchanged with [./ultis] and the contract *)

(** A curve point as the contract takes it: affine coordinates. *)
Record SolidityPointInput : Type := { x : Z; y : Z }.

(** A curve point as the curve library holds it. *)
Definition BabyJubPoint : Type := (Z * Z)%type.

Record BabyJubAccount : Type := {
  privateKey : Z;
  publicKey : SolidityPointInput
}.

(** One entry of [simulateAccounts]: [accountData[0]] is [CL],
    [accountData[1]] is [CR]. *)
Definition AccountData : Type := (SolidityPointInput * SolidityPointInput)%type.

(** Proof material is passed on untouched; its shape does not matter here. *)
Definition Payload : Type := list Z.

Record BurnInput : Type := {
  burn_y : list string;
  burn_sk : string;
  burn_CL : list string;
  burn_CR : list string;
  burn_b : string;
  burn_cur_b : string;
  burn_counter : string
}.

Record TransferInput : Type := {
  sk : string;
  r : string;
  sAmount : string;
  bRem : string;
  MAX_ : string;
  CS : list string;
  D : list string;
  CRe : list string;
  y_ : list string;
  yR : list string;
  CL : list string;
  CR : list string;
  counter : string
}.

Record ProofResult : Type := { proof : Payload; publicSignals : list string }.

Record Calldata : Type := { pA : Payload; pB : Payload; pC : Payload }.

(** The functions the client imports from [./ultis].  The module is not part
    of the sources at hand, so its functions are parameters.  A rejected
    promise is [inl reason].  [randomBabyJubScalar] and [schnorrChallenge] draw
    randomness: a record fixes the draws of one run. *)
Record Ultis : Type := {
  generateBabyJubAccount : option string -> BabyJubAccount;
  convertToBabyJubPoints : SolidityPointInput -> BabyJubPoint;
  formatPoint : BabyJubPoint -> SolidityPointInput;
  createTransferInput :
    BabyJubPoint -> BabyJubPoint -> Z -> Z -> BabyJubPoint * BabyJubPoint * BabyJubPoint;
  readBalanceWithOnchainData : AccountData -> Z -> option number;
  randomBabyJubScalar : bool -> Z;
  generateBurnProof : BurnInput -> string + ProofResult;
  generateTransferProof : TransferInput -> string + ProofResult;
  generateCalldata : Payload -> list string -> string + Calldata;
  flattenProof : Payload -> Payload -> Payload -> Payload;
  convertSolidityPointToArrayString : SolidityPointInput -> list string;
  convertToBabyJubPointsArrayString : BabyJubPoint -> list string;
  calculatePublicKeyHash : SolidityPointInput -> string;
  schnorrChallenge : string -> string -> SolidityPointInput -> Z -> Z * Z
}.

(** What the client uses of the runtime and of [ethers] / [viem] beyond the
    functions written out in [Js]. *)
Record Runtime : Type := {
  numberToStringOther : number -> string;
  stringToNumberOther : string -> number;
  getAddress : string -> outcome string;
  parseEther : string -> outcome Z
}.

(** ** The ledger *)

(** A [viem] account: the address a write is sent from. *)
Definition Account : Type := string.

Inductive read_call : Type :=
| R_epochLength
| R_getBlockNumber
| R_simulateAccounts (ys : list SolidityPointInput) (epoch : Z)
| R_counter (publicKeyHash : string)
| R_MAX.

Inductive write_call : Type :=
| W_fund (pk : SolidityPointInput) (value : Z)
| W_burn (pk : SolidityPointInput) (amount : Z) (proofFlat : Payload)
| W_transfer (pk receiver C_send C_receive D : SolidityPointInput) (proofFlat : Payload)
| W_rollOver (pk : SolidityPointInput)
| W_lock (pk : SolidityPointInput) (lockAddress : string) (c s : Z)
| W_unlock (pk : SolidityPointInput).

(** The contract handle: what each read answers during one operation, and
    for each write either the revert reason or the transaction hash. *)
Record MyZSCContract : Type := {
  address : string;
  read_epochLength : Z;
  read_MAX : Z;
  read_counter : string -> Z;
  read_simulateAccounts : list SolidityPointInput -> Z -> list AccountData;
  write : option Account -> write_call -> string + string
}.

Record PublicClient : Type := { getBlockNumber : Z }.

(** ** Computations *)

Inductive witness : Type :=
| BurnWitness (i : BurnInput)
| TransferWitness (i : TransferInput).

Inductive event : Type :=
| Read (c : read_call)                       (* a network read *)
| Write (from : option Account) (c : write_call) (* a state-mutating submission *)
| Decode (d : AccountData)                   (* [readBalanceWithOnchainData] *)
| Prove (w : witness).                       (* a witness handed to the prover *)

Definition M (A : Type) : Type := (list event * outcome A)%type.

Definition ret {A : Type} (a : A) : M A := ([], Ok a).

Definition throw {A : Type} (e : error) : M A := ([], Throw e).

Definition bind {A B : Type} (m : M A) (k : A -> M B) : M B :=
  match m with
  | (t, Ok a) => let (t', r) := k a in ((t ++ t')%list, r)
  | (t, Throw e) => (t, Throw e)
  end.

Definition lift {A : Type} (o : outcome A) : M A := ([], o).

Definition await {A : Type} (p : string + A) : M A :=
  match p with
  | inl reason => throw (Rejected reason)
  | inr a => ret a
  end.

Definition emit (ev : event) : M unit := ([ev], Ok tt).

Declare Scope client_scope.
Delimit Scope client_scope with client.
Notation "x <- m ;; k" := (bind m (fun x => k))
  (at level 100, m at next level, right associativity) : client_scope.
Notation "m ;;; k" := (bind m (fun _ => k))
  (at level 100, right associativity) : client_scope.
Local Open Scope client_scope.

Definition read {A : Type} (c : read_call) (answer : A) : M A :=
  emit (Read c) ;;; ret answer.

Definition submit (BasicZether : MyZSCContract) (from : option Account)
    (c : write_call) : M string :=
  emit (Write from c) ;;;
  match write BasicZether from c with
  | inl reason => throw (Reverted reason)
  | inr hash => ret hash
  end.

(** ** [class Client] *)

Record Client : Type := {
  account : BabyJubAccount;
  MAX : Z
}.

Definition new_Client (U : Ultis) (MAX : Z) (account : option BabyJubAccount) : Client :=
  {| account := match account with
                | Some a => a
                | None => generateBabyJubAccount U None
                end;
     MAX := MAX |}.

Definition this_privateKey (this : Client) : Z := privateKey (account this).
Definition this_publicKey (this : Client) : SolidityPointInput := publicKey (account this).

Definition fund (R : Runtime) (this : Client) (BasicZether : MyZSCContract)
    (account : Account) (amount : string) : M string :=
  valueWei <- lift (parseEther R amount) ;;
  submit BasicZether (Some account) (W_fund (this_publicKey this) valueWei).

(** [accounts[0]] of an empty answer is [undefined] in JavaScript and the
    first use of it fails; the failure is placed here. *)
Definition stimulateAccount (this : Client) (BasicZether : MyZSCContract)
    (publicClient : PublicClient) : M AccountData :=
  epochLength <- read R_epochLength (read_epochLength BasicZether) ;;
  blockNumber <- read R_getBlockNumber (getBlockNumber publicClient) ;;
  epoch <- lift (bigint_div blockNumber epochLength) ;;
  accounts <- read (R_simulateAccounts [this_publicKey this] epoch)
                (read_simulateAccounts BasicZether [this_publicKey this] epoch) ;;
  match accounts with
  | accountData :: _ => ret accountData
  | [] => throw TypeError
  end.

Definition decode (U : Ultis) (accountData : AccountData) (privateKey : Z)
    : M (option number) :=
  emit (Decode accountData) ;;;
  ret (readBalanceWithOnchainData U accountData privateKey).

(** [if (!cur_b) throw new Error("Current balance is undefined")]: past it
    [cur_b] is a number. *)
Definition require_balance (cur_b : option number) : M number :=
  match cur_b with
  | Some b => if falsy cur_b then throw (Error "Current balance is undefined") else ret b
  | None => throw (Error "Current balance is undefined")
  end.

Definition prove_burn (U : Ultis) (i : BurnInput) : M ProofResult :=
  emit (Prove (BurnWitness i)) ;;; await (generateBurnProof U i).

Definition prove_transfer (U : Ultis) (i : TransferInput) : M ProofResult :=
  emit (Prove (TransferWitness i)) ;;; await (generateTransferProof U i).

Definition burn (U : Ultis) (R : Runtime) (this : Client)
    (BasicZether : MyZSCContract) (publicClient : PublicClient)
    (account : Account) (amount : string) : M (string * Calldata) :=
  accountData <- stimulateAccount this BasicZether publicClient ;;
  cur_b <- decode U accountData (this_privateKey this) ;;
  counter <- (let h := calculatePublicKeyHash U (this_publicKey this) in
              read (R_counter h) (read_counter BasicZether h)) ;;
  cur_b <- require_balance cur_b ;;
  proof <- prove_burn U
    {| burn_y := convertSolidityPointToArrayString U (this_publicKey this);
       burn_sk := Z_to_string (this_privateKey this);
       burn_CL := convertSolidityPointToArrayString U (fst accountData);
       burn_CR := convertSolidityPointToArrayString U (snd accountData);
       burn_b := amount;
       burn_cur_b := Number_toString (numberToStringOther R) cur_b;
       burn_counter := Z_to_string counter |} ;;
  calldata <- await (generateCalldata U (proof.(Zether.proof)) (publicSignals proof)) ;;
  let proofFlat := flattenProof U (pA calldata) (pB calldata) (pC calldata) in
  amount' <- lift (BigInt amount) ;;
  res <- submit BasicZether (Some account)
           (W_burn (this_publicKey this) amount' proofFlat) ;;
  ret (res, calldata).

(** Line 146: [cur_b - Number(amount)], a subtraction of doubles. *)
Definition remainAmount (R : Runtime) (cur_b : number) (amount : string) : number :=
  sub cur_b (Number (stringToNumberOther R) amount).

Definition transfer (U : Ultis) (R : Runtime) (this : Client)
    (BasicZether : MyZSCContract) (publicClient : PublicClient)
    (account : Account) (amount : string) (receiverPublicKey : SolidityPointInput)
    : M string :=
  accountData <- stimulateAccount this BasicZether publicClient ;;
  cur_b <- decode U accountData (this_privateKey this) ;;
  counter <- (let h := calculatePublicKeyHash U (this_publicKey this) in
              read (R_counter h) (read_counter BasicZether h)) ;;
  MAX <- read R_MAX (read_MAX BasicZether) ;;
  cur_b <- require_balance cur_b ;;
  let r := randomBabyJubScalar U true in
  amount' <- lift (BigInt amount) ;;
  let '(C_send, C_receive, D) :=
    createTransferInput U
      (convertToBabyJubPoints U (this_publicKey this))
      (convertToBabyJubPoints U receiverPublicKey)
      amount' r in
  let remainAmount := remainAmount R cur_b amount in
  proof <- prove_transfer U
    {| sk := Z_to_string (this_privateKey this);
       r := Z_to_string r;
       sAmount := amount;
       bRem := Number_toString (numberToStringOther R) remainAmount;
       MAX_ := Z_to_string MAX;
       CS := convertToBabyJubPointsArrayString U C_send;
       D := convertToBabyJubPointsArrayString U D;
       CRe := convertToBabyJubPointsArrayString U C_receive;
       y_ := convertSolidityPointToArrayString U (this_publicKey this);
       yR := convertSolidityPointToArrayString U receiverPublicKey;
       CL := convertSolidityPointToArrayString U (fst accountData);
       CR := convertSolidityPointToArrayString U (snd accountData);
       counter := Z_to_string counter |} ;;
  calldata <- await (generateCalldata U (proof.(Zether.proof)) (publicSignals proof)) ;;
  let proofFlat := flattenProof U (pA calldata) (pB calldata) (pC calldata) in
  submit BasicZether (Some account)
    (W_transfer (this_publicKey this) receiverPublicKey
       (formatPoint U C_send) (formatPoint U C_receive) (formatPoint U D) proofFlat).

Definition rollOver (this : Client) (BasicZether : MyZSCContract) : M string :=
  submit BasicZether None (W_rollOver (this_publicKey this)).

Definition getCurrentBalance (U : Ultis) (this : Client)
    (BasicZether : MyZSCContract) (publicClient : PublicClient) : M (option number) :=
  accountData <- stimulateAccount this BasicZether publicClient ;;
  decode U accountData (this_privateKey this).

Definition lock (U : Ultis) (R : Runtime) (this : Client)
    (BasicZether : MyZSCContract) (account : Account) (lockAddress : string)
    : M string :=
  let y := this_publicKey this in
  lockAddress <- lift (getAddress R lockAddress) ;;
  _contractAddress <- lift (getAddress R (address BasicZether)) ;;
  _lockAddress <- lift (getAddress R lockAddress) ;;
  let '(c, s) := schnorrChallenge U _contractAddress _lockAddress y (this_privateKey this) in
  submit BasicZether (Some account) (W_lock (this_publicKey this) lockAddress c s).

Definition unlock (this : Client) (BasicZether : MyZSCContract) (account : Account)
    : M string :=
  submit BasicZether (Some account) (W_unlock (this_publicKey this)).

(** ** Observing a run *)

Definition is_read (ev : event) : bool :=
  match ev with Read _ => true | _ => false end.
Definition is_write (ev : event) : bool :=
  match ev with Write _ _ => true | _ => false end.
Definition is_decode (ev : event) : bool :=
  match ev with Decode _ => true | _ => false end.
Definition is_prove (ev : event) : bool :=
  match ev with Prove _ => true | _ => false end.

(** The events of a run and the error it ended in, if any. *)
Definition observe {A : Type} (m : M A) : list event * option error :=
  (fst m, match snd m with Ok _ => None | Throw e => Some e end).

(** The two operations that spend from the balance. *)
Inductive operation : Type :=
| Burn
| Transfer (receiverPublicKey : SolidityPointInput).

Definition run (U : Ultis) (R : Runtime) (this : Client)
    (BasicZether : MyZSCContract) (publicClient : PublicClient)
    (account : Account) (amount : string) (o : operation)
    : list event * option error :=
  match o with
  | Burn => observe (burn U R this BasicZether publicClient account amount)
  | Transfer receiverPublicKey =>
      observe (transfer U R this BasicZether publicClient account amount
                 receiverPublicKey)
  end.

(** Every error but a revert of the ledger arises on the client's side. *)
Definition local_error (e : error) : bool :=
  match e with
  | Reverted _ => false
  | _ => true
  end.

(** The writes a run issued. *)
Definition writes (t : list event) : list event := filter is_write t.

(** A computation that submits nothing, however it ends. *)
Definition no_write {A : Type} (m : M A) : Prop := writes (fst m) = [].

(** A computation that has submitted nothing whenever it ends in an error
    of the client's side. *)
Definition fails_before_write {A : Type} (m : M A) : Prop :=
  forall e, snd m = Throw e -> local_error e = true -> writes (fst m) = [].

(** The amount reaches [BigInt] before the prover only in [transfer]. *)
Definition parses (o : operation) (amount : string) (amount' : Z) : Prop :=
  match o with
  | Burn => True
  | Transfer _ => BigInt amount = Ok amount'
  end.

(** The ledger answers the reads of [stimulateAccount], and the entry for
    this account is [accountData]. *)
Definition answers (this : Client) (BasicZether : MyZSCContract)
    (publicClient : PublicClient) (accountData : AccountData) : Prop :=
  read_epochLength BasicZether <> 0 /\
  exists rest,
    read_simulateAccounts BasicZether [this_publicKey this]
      (Z.quot (getBlockNumber publicClient) (read_epochLength BasicZether))
    = accountData :: rest.

(** The calls both operations make before they look at the balance. *)
Definition calls_before_check (U : Ultis) (this : Client)
    (BasicZether : MyZSCContract) (publicClient : PublicClient)
    (accountData : AccountData) (o : operation) : list event :=
  [ Read R_epochLength;
    Read R_getBlockNumber;
    Read (R_simulateAccounts [this_publicKey this]
            (Z.quot (getBlockNumber publicClient) (read_epochLength BasicZether)));
    Decode accountData;
    Read (R_counter (calculatePublicKeyHash U (this_publicKey this))) ]
  ++ match o with
     | Burn => []
     | Transfer _ => [Read R_MAX]
     end.

(** The witness each operation hands to the prover, from what it has read;
    [amount'] is [BigInt(amount)]. *)
Definition witness_of (U : Ultis) (R : Runtime) (this : Client)
    (BasicZether : MyZSCContract) (accountData : AccountData) (cur_b : number)
    (amount : string) (amount' : Z) (o : operation) : witness :=
  let counter :=
    read_counter BasicZether (calculatePublicKeyHash U (this_publicKey this)) in
  match o with
  | Burn =>
      BurnWitness
        {| burn_y := convertSolidityPointToArrayString U (this_publicKey this);
           burn_sk := Z_to_string (this_privateKey this);
           burn_CL := convertSolidityPointToArrayString U (fst accountData);
           burn_CR := convertSolidityPointToArrayString U (snd accountData);
           burn_b := amount;
           burn_cur_b := Number_toString (numberToStringOther R) cur_b;
           burn_counter := Z_to_string counter |}
  | Transfer receiverPublicKey =>
      let r := randomBabyJubScalar U true in
      let '(C_send, C_receive, D) :=
        createTransferInput U
          (convertToBabyJubPoints U (this_publicKey this))
          (convertToBabyJubPoints U receiverPublicKey)
          amount' r in
      TransferWitness
        {| sk := Z_to_string (this_privateKey this);
           r := Z_to_string r;
           sAmount := amount;
           bRem := Number_toString (numberToStringOther R)
                     (remainAmount R cur_b amount);
           MAX_ := Z_to_string (read_MAX BasicZether);
           CS := convertToBabyJubPointsArrayString U C_send;
           D := convertToBabyJubPointsArrayString U D;
           CRe := convertToBabyJubPointsArrayString U C_receive;
           y_ := convertSolidityPointToArrayString U (this_publicKey this);
           yR := convertSolidityPointToArrayString U receiverPublicKey;
           CL := convertSolidityPointToArrayString U (fst accountData);
           CR := convertSolidityPointToArrayString U (snd accountData);
           counter := Z_to_string counter |}
  end.

(** The amount a witness carries. *)
Definition witness_amount (w : witness) : string :=
  match w with
  | BurnWitness i => burn_b i
  | TransferWitness i => sAmount i
  end.

(** The prover's answer to a witness. *)
Definition prover_answer (U : Ultis) (w : witness) : string + ProofResult :=
  match w with
  | BurnWitness i => generateBurnProof U i
  | TransferWitness i => generateTransferProof U i
  end.

End Zether.

(* ================================================================== *)
(** * A small concrete instance *)
(* ================================================================== *)

(** A toy curve (the integers under addition, base point [1]) with a ledger
    and a prover that enforce the bounds of the protocol.  It gives the
    statements below concrete inputs to run on. *)
Module Demo.
Import Js Zether.

Definition in_range (lo v hi : Z) : bool := (lo <=? v) && (v <=? hi).

(** The burn circuit accepts an amount between [0] and the balance. *)
Definition demo_generateBurnProof (i : BurnInput) : string + ProofResult :=
  match StringToBigInt (burn_b i), StringToBigInt (burn_cur_b i) with
  | Some b, Some cur_b =>
      if in_range 0 b cur_b
      then inr {| proof := [1]; publicSignals := [burn_b i; burn_counter i] |}
      else inl "WitnessInvalid"
  | _, _ => inl "WitnessInvalid"
  end.

(** The transfer circuit accepts an amount and a remainder in [[0, MAX]]. *)
Definition demo_generateTransferProof (i : TransferInput) : string + ProofResult :=
  match StringToBigInt (sAmount i), StringToBigInt (bRem i), StringToBigInt (MAX_ i) with
  | Some a, Some rem, Some M =>
      if in_range 0 a M && in_range 0 rem M
      then inr {| proof := [2]; publicSignals := [MAX_ i; counter i] |}
      else inl "WitnessInvalid"
  | _, _, _ => inl "WitnessInvalid"
  end.

(** [bound] is the ceiling of the balance search. *)
Definition demo_ultis (bound : Z) : Ultis := {|
  generateBabyJubAccount := fun _ =>
    {| privateKey := 7; publicKey := {| x := 7; y := 0 |} |};
  convertToBabyJubPoints := fun p => (x p, y p);
  formatPoint := fun p => {| x := fst p; y := snd p |};
  createTransferInput := fun pk pkR amount r =>
    ((r * fst pk - amount, 0), (r * fst pkR + amount, 0), (r, 0));
  readBalanceWithOnchainData := fun d sk =>
    let m := x (fst d) - sk * x (snd d) in
    if in_range 0 m bound then Some (of_Z m) else None;
  randomBabyJubScalar := fun _ => 11;
  generateBurnProof := demo_generateBurnProof;
  generateTransferProof := demo_generateTransferProof;
  generateCalldata := fun p _ => inr {| pA := p; pB := p; pC := p |};
  flattenProof := fun a b c => (a ++ b ++ c)%list;
  convertSolidityPointToArrayString := fun p => [Z_to_string (x p); Z_to_string (y p)];
  convertToBabyJubPointsArrayString := fun p => [Z_to_string (fst p); Z_to_string (snd p)];
  calculatePublicKeyHash := fun p => "0x" ++ Z_to_string (x p);
  schnorrChallenge := fun contractAddress lockAddress pk sk =>
    let k := 5 in
    let c := Z.of_nat (String.length contractAddress + String.length lockAddress)
             + x pk + k in
    (c, k - c * sk)
|}.

Definition demo_runtime : Runtime := {|
  numberToStringOther := fun _ => "1e+21";
  stringToNumberOther := fun _ => S754_nan;
  getAddress := fun s =>
    if (String.length s =? 42)%nat then Ok s else Throw (Error "invalid address");
  parseEther := fun s => Units.toUnitsByDecimals_string s 18
|}.

Definition demo_account : BabyJubAccount :=
  {| privateKey := 7; publicKey := {| x := 7; y := 0 |} |}.

Definition receiver_key : SolidityPointInput := {| x := 9; y := 0 |}.

Definition sender : Account := "0x70997970C51812dc3A010C7d01b50e0d17dc79C8".

(** A ledger on which the account of [demo_account] holds [balance], at
    block 45 with epochs of 20 blocks. *)
Definition demo_contract (MAX balance : Z) : MyZSCContract := {|
  address := "0x5FbDB2315678afecb367f032d93F642f64180aa3";
  read_epochLength := 20;
  read_MAX := MAX;
  read_counter := fun _ => 3;
  read_simulateAccounts := fun ys _ =>
    map (fun _ => ({| x := balance + 7 * 2; y := 0 |}, {| x := 2; y := 0 |})) ys;
  write := fun _ _ => inr "0xabc"
|}.

Definition demo_publicClient : PublicClient := {| getBlockNumber := 45 |}.

Definition MAX32 : Z := 4294967295.

Definition demo_client : Client := new_Client (demo_ultis MAX32) MAX32 (Some demo_account).

End Demo.

(* ================================================================== *)
(** * Further notions for the operations *)
(* ================================================================== *)

Module Submission.
Import Js Zether.

(** A computation that submits at most one write, from [from], as its last
    call, and ends as the ledger answers that write: in its revert reason, or
    in a value. *)
Definition submits_at_end (BasicZether : MyZSCContract) (from : option Account)
    {A : Type} (m : M A) : Prop :=
  writes (fst m) = [] \/
  exists t c,
    fst m = (t ++ [Write from c])%list /\ writes t = [] /\
    match write BasicZether from c with
    | inl reason => snd m = Throw (Reverted reason)
    | inr _ => exists a, snd m = Ok a
    end.

(** The write each operation submits: [amount'] is [BigInt(amount)] and
    [proofFlat] the flattened proof. *)
Definition write_of (U : Ultis) (this : Client) (o : operation) (amount' : Z)
    (proofFlat : Payload) : write_call :=
  match o with
  | Burn => W_burn (this_publicKey this) amount' proofFlat
  | Transfer receiverPublicKey =>
      let '(C_send, C_receive, D) :=
        createTransferInput U
          (convertToBabyJubPoints U (this_publicKey this))
          (convertToBabyJubPoints U receiverPublicKey)
          amount' (randomBabyJubScalar U true) in
      W_transfer (this_publicKey this) receiverPublicKey
        (formatPoint U C_send) (formatPoint U C_receive) (formatPoint U D) proofFlat
  end.

(** The same account with another [MAX] given to the constructor. *)
Definition with_MAX (this : Client) (MAX' : Z) : Client :=
  {| account := account this; MAX := MAX' |}.

End Submission.

(* ================================================================== *)
(** * The helper of the test suites *)
(* ================================================================== *)

Module TestSuite.
Import Js Zether.

Definition EPOCH_LENGTH : Z := 20.
Definition DECIMALS : Z := 4.

(** [testClient.mine({ blocks })]: the chain grows by [blocks] blocks.  The
    count is a number; one that is no integer mines nothing here. *)
Definition mine (blocks : number) (chain : PublicClient) : PublicClient :=
  match to_Z blocks with
  | Some n => {| getBlockNumber := getBlockNumber chain + n |}
  | None => chain
  end.

(** [increaseToNextEpoch]: [%] on bigints is the remainder of the truncating
    division, and [Number(...)] turns the count into a double. *)
Definition increaseToNextEpoch (publicClient : PublicClient) : PublicClient :=
  let blockNumber := getBlockNumber publicClient in
  let blockUntilNextEpoch := EPOCH_LENGTH - Z.rem blockNumber EPOCH_LENGTH in
  mine (of_Z blockUntilNextEpoch) publicClient.

End TestSuite.

(* ================================================================== *)
(** * More ledgers to run on *)
(* ================================================================== *)

Module Scenarios.
Import Js Zether Demo.

(** A ledger that reports an epoch length of zero. *)
Definition stalled_contract : MyZSCContract := {|
  address := address (demo_contract MAX32 20000);
  read_epochLength := 0;
  read_MAX := MAX32;
  read_counter := read_counter (demo_contract MAX32 20000);
  read_simulateAccounts := read_simulateAccounts (demo_contract MAX32 20000);
  write := write (demo_contract MAX32 20000)
|}.

(** A ledger that answers like [demo_contract] and reverts every write of a
    caller other than [owner]. *)
Definition locked_contract (owner : Account) : MyZSCContract := {|
  address := address (demo_contract MAX32 20000);
  read_epochLength := read_epochLength (demo_contract MAX32 20000);
  read_MAX := MAX32;
  read_counter := read_counter (demo_contract MAX32 20000);
  read_simulateAccounts := read_simulateAccounts (demo_contract MAX32 20000);
  write := fun from c =>
    match from with
    | Some a => if (a =? owner)%string then inr "0xabc" else inl "Not authorized"
    | None => inl "Not authorized"
    end
|}.

Definition stranger : Account := "0x3C44CdDdB6a900fa2b585dd299e03d12FA4293BC".

(** The functions of [demo_ultis] with a prover that accepts every
    witness. *)
Definition lenient_ultis (bound : Z) : Ultis := {|
  generateBabyJubAccount := generateBabyJubAccount (demo_ultis bound);
  convertToBabyJubPoints := convertToBabyJubPoints (demo_ultis bound);
  formatPoint := formatPoint (demo_ultis bound);
  createTransferInput := createTransferInput (demo_ultis bound);
  readBalanceWithOnchainData := readBalanceWithOnchainData (demo_ultis bound);
  randomBabyJubScalar := randomBabyJubScalar (demo_ultis bound);
  generateBurnProof := fun i =>
    inr {| proof := [1]; publicSignals := [burn_b i; burn_counter i] |};
  generateTransferProof := fun i =>
    inr {| proof := [2]; publicSignals := [MAX_ i; counter i] |};
  generateCalldata := generateCalldata (demo_ultis bound);
  flattenProof := flattenProof (demo_ultis bound);
  convertSolidityPointToArrayString := convertSolidityPointToArrayString (demo_ultis bound);
  convertToBabyJubPointsArrayString := convertToBabyJubPointsArrayString (demo_ultis bound);
  calculatePublicKeyHash := calculatePublicKeyHash (demo_ultis bound);
  schnorrChallenge := schnorrChallenge (demo_ultis bound)
|}.

End Scenarios.

(* ================================================================== *)
(** * Facts about the runtime *)
(* ================================================================== *)

(** ** Doubles that hold integers *)

Module FloatFacts.
Import Js.

Lemma iter_pos_nat {A : Type} (f : A -> A) (n : positive) (x : A) :
  iter_pos f n x = Nat.iter (Pos.to_nat n) f x.
Proof.
  transitivity (Pos.iter f x n).
  - revert x. induction n as [n IH | n IH | ]; intro x; simpl.
    + rewrite !IH, !Pos.iter_swap. reflexivity.
    + rewrite !IH. reflexivity.
    + reflexivity.
  - apply Pos2Nat.inj_iter.
Qed.

Lemma shiftl_nat_Z (w : positive) (n : nat) :
  Zpos (Pos.shiftl_nat w n) = Zpos w * 2 ^ Z.of_nat n.
Proof.
  induction n as [ | n IH].
  - simpl. lia.
  - change (Pos.shiftl_nat w (S n)) with (xO (Pos.shiftl_nat w n)).
    rewrite Pos2Z.inj_xO, IH, Nat2Z.inj_succ, Z.pow_succ_r by lia. ring.
Qed.

Lemma iter_xO_Z (m d : positive) :
  Zpos (Pos.iter xO m d) = Zpos m * 2 ^ Zpos d.
Proof.
  rewrite Pos2Nat.inj_iter.
  change (nat_rect (fun _ => positive) m (fun _ => xO) (Pos.to_nat d))
    with (Pos.shiftl_nat m (Pos.to_nat d)).
  rewrite shiftl_nat_Z, positive_nat_Z. reflexivity.
Qed.

(** Shifting out zero bits loses nothing. *)
Lemma shr_1_exact (n : nat) (w : positive) :
  Nat.iter n shr_1 (Build_shr_record (Zpos (Pos.shiftl_nat w n)) false false)
  = Build_shr_record (Zpos w) false false.
Proof.
  induction n as [ | n IH].
  - reflexivity.
  - rewrite Nat.iter_succ_r.
    change (Pos.shiftl_nat w (S n)) with (xO (Pos.shiftl_nat w n)).
    simpl shr_1. exact IH.
Qed.

Lemma shr_exact (m w : positive) (e n : Z) :
  0 <= n -> Zpos m = Zpos w * 2 ^ n ->
  shr (Build_shr_record (Zpos m) false false) e n
  = (Build_shr_record (Zpos w) false false, e + n).
Proof.
  intros Hn Hm. destruct n as [ | p | p]; try lia.
  - simpl. f_equal; [ | lia]. f_equal. lia.
  - unfold shr. f_equal. rewrite iter_pos_nat.
    replace m with (Pos.shiftl_nat w (Pos.to_nat p)).
    + apply shr_1_exact.
    + apply Pos2Z.inj. rewrite shiftl_nat_Z, positive_nat_Z. lia.
Qed.

(** The number of binary digits is the logarithm plus one. *)
Lemma digits2_pos_size (p : positive) : digits2_pos p = Pos.size p.
Proof. induction p as [p IH | p IH | ]; simpl; congruence. Qed.

Lemma digits2_pos_log2 (p : positive) :
  Zpos (digits2_pos p) = Z.log2 (Zpos p) + 1.
Proof.
  rewrite digits2_pos_size.
  destruct p as [p | p | ]; simpl; rewrite ?Pos2Z.inj_succ; lia.
Qed.

Lemma digits2_pos_shift (m v : positive) (k : Z) :
  0 <= k -> Zpos m = Zpos v * 2 ^ k ->
  Zpos (digits2_pos m) = Zpos (digits2_pos v) + k.
Proof.
  intros Hk Hm. rewrite !digits2_pos_log2, Hm, Z.log2_mul_pow2 by lia. lia.
Qed.

Lemma digits2_pos_le (v : positive) (n : Z) :
  0 <= n -> Zpos v <= 2 ^ n -> Zpos (digits2_pos v) <= n + 1.
Proof.
  intros Hn Hv. rewrite digits2_pos_log2.
  assert (Z.log2 (Zpos v) <= Z.log2 (2 ^ n)) by (apply Z.log2_le_mono; exact Hv).
  rewrite Z.log2_pow2 in H by lia. lia.
Qed.

Lemma digits2_pos_full (v : positive) (n : Z) :
  0 <= n -> Zpos v <= 2 ^ n -> Zpos (digits2_pos v) = n + 1 -> Zpos v = 2 ^ n.
Proof.
  intros Hn Hv Hd. rewrite digits2_pos_log2 in Hd.
  assert (Hlog : Z.log2 (Zpos v) = n) by lia.
  pose proof (Z.log2_spec (Zpos v) ltac:(lia)) as [Hlo _].
  rewrite Hlog in Hlo. lia.
Qed.

Lemma canon_digits (v w : positive) :
  canon v w -> Zpos (digits2_pos w) = 53.
Proof.
  unfold canon. intros H.
  destruct (Z.le_gt_cases (Zpos (digits2_pos v) - 53) 0) as [Ht | Ht].
  - rewrite Z.max_r, Z.max_l, Z.pow_0_r, Z.mul_1_r in H by lia.
    pose proof (digits2_pos_shift w v (- (Zpos (digits2_pos v) - 53))
                  ltac:(lia) H). lia.
  - rewrite Z.max_l, Z.max_r, Z.pow_0_r, Z.mul_1_r in H by lia.
    symmetry in H.
    pose proof (digits2_pos_shift v w (Zpos (digits2_pos v) - 53)
                  ltac:(lia) H). lia.
Qed.

(** The value of the canonical mantissa, scaled to any lower exponent. *)
Lemma canon_scaled (v w : positive) (ez : Z) :
  canon v w -> ez <= 0 -> ez <= Zpos (digits2_pos v) - 53 ->
  Zpos w * 2 ^ (Zpos (digits2_pos v) - 53 - ez) = Zpos v * 2 ^ (- ez).
Proof.
  unfold canon. intros H Hez Hle.
  destruct (Z.le_gt_cases (Zpos (digits2_pos v) - 53) 0) as [Ht | Ht].
  - rewrite Z.max_r, Z.max_l, Z.pow_0_r, Z.mul_1_r in H by lia.
    rewrite H, <- Z.mul_assoc, <- Z.pow_add_r by lia.
    f_equal; try f_equal; lia.
  - rewrite Z.max_l, Z.max_r, Z.pow_0_r, Z.mul_1_r in H by lia.
    rewrite <- H, <- Z.mul_assoc, <- Z.pow_add_r by lia.
    f_equal; try f_equal; lia.
Qed.

Lemma binary_round_aux_exact (s : bool) (mz w : positive) (ez t : Z) :
  ez <= t -> -1074 <= t <= 971 ->
  Zpos mz = Zpos w * 2 ^ (t - ez) ->
  Zpos (digits2_pos w) = 53 ->
  binary_round_aux prec emax s (Zpos mz) ez loc_Exact = S754_finite s w t.
Proof.
  intros Hez Ht Hm Hw.
  pose proof (digits2_pos_shift mz w (t - ez) ltac:(lia) Hm) as Hd.
  unfold binary_round_aux, shr_fexp.
  cbn [Zdigits2 shr_record_of_loc].
  replace (fexp prec emax (Zpos (digits2_pos mz) + ez) - ez) with (t - ez)
    by (unfold fexp, SpecFloat.emin, prec, emax; lia).
  rewrite (shr_exact mz w ez (t - ez) ltac:(lia) Hm).
  cbn [shr_m loc_of_shr_record round_nearest_even Zdigits2 shr_record_of_loc].
  replace (fexp prec emax (Zpos (digits2_pos w) + (ez + (t - ez))) - (ez + (t - ez)))
    with 0 by (unfold fexp, SpecFloat.emin, prec, emax; lia).
  cbn [shr shr_m].
  replace (ez + (t - ez)) with t by lia.
  replace (t <=? emax - prec) with true
    by (symmetry; apply Z.leb_le; unfold prec, emax; lia).
  reflexivity.
Qed.

(** A positive integer of at most [2^53], given as [M * 2^e], rounds to its
    canonical mantissa: nothing is lost. *)
Lemma binary_round_canon (s : bool) (M v w : positive) (e : Z) :
  e <= 0 -> Zpos M = Zpos v * 2 ^ (- e) -> Zpos v <= 2 ^ 53 -> canon v w ->
  binary_round prec emax s M e = S754_finite s w (Zpos (digits2_pos v) - 53).
Proof.
  intros He HM Hv Hc.
  pose proof (digits2_pos_le v 53 ltac:(lia) Hv) as Hdv.
  pose proof (digits2_pos_shift M v (- e) ltac:(lia) HM) as HdM.
  pose proof (canon_digits v w Hc) as Hw.
  set (t := Zpos (digits2_pos v) - 53) in *.
  assert (Ht : -52 <= t <= 1) by (unfold t; lia).
  unfold binary_round.
  replace (fexp prec emax (Zpos (digits2_pos M) + e)) with t
    by (unfold fexp, SpecFloat.emin, prec, emax; lia).
  unfold shl_align. destruct (t - e) as [ | p | p] eqn:E.
  - apply binary_round_aux_exact; try lia.
    rewrite HM. symmetry. apply canon_scaled; unfold t in *; try assumption; lia.
  - apply binary_round_aux_exact; try lia.
    rewrite HM. symmetry. apply canon_scaled; unfold t in *; try assumption; lia.
  - apply binary_round_aux_exact; try lia.
    rewrite iter_xO_Z, HM, Z.sub_diag, Z.pow_0_r, Z.mul_1_r.
    replace (Zpos p) with (e - t) by lia.
    rewrite <- Z.mul_assoc, <- Z.pow_add_r by lia.
    replace (- e + (e - t)) with (- t) by lia.
    pose proof (canon_scaled v w t Hc ltac:(lia) ltac:(unfold t; lia)) as Hs.
    fold t in Hs. rewrite Z.sub_diag, Z.pow_0_r, Z.mul_1_r in Hs. lia.
Qed.

Lemma canon_exists (v : positive) :
  Zpos v <= 2 ^ 53 -> exists w, canon v w.
Proof.
  intros Hv. unfold canon.
  pose proof (digits2_pos_le v 53 ltac:(lia) Hv) as Hdv.
  destruct (Z.le_gt_cases (Zpos (digits2_pos v) - 53) 0) as [Ht | Ht].
  - exists (Z.to_pos (Zpos v * 2 ^ (- (Zpos (digits2_pos v) - 53)))).
    rewrite Z.max_r, Z.max_l, Z.pow_0_r, Z.mul_1_r by lia.
    rewrite Z2Pos.id; [reflexivity | ].
    apply Z.mul_pos_pos; [lia | apply Z.pow_pos_nonneg; lia].
  - exists (Z.to_pos (2 ^ 52)).
    rewrite Z.max_l, Z.max_r, Z.pow_0_r, Z.mul_1_r by lia.
    rewrite (digits2_pos_full v 53 ltac:(lia) Hv ltac:(lia)).
    replace (Zpos (digits2_pos v) - 53) with 1 by lia. reflexivity.
Qed.

Lemma of_Z_canon (v w : positive) :
  Zpos v <= 2 ^ 53 -> canon v w ->
  of_Z (Zpos v) = S754_finite false w (Zpos (digits2_pos v) - 53).
Proof.
  intros Hv Hc. unfold of_Z, binary_normalize.
  apply binary_round_canon; try assumption; try lia.
Qed.

Lemma shl_align_Z (m : positive) (e ez : Z) :
  ez <= e -> Zpos (fst (shl_align m e ez)) = Zpos m * 2 ^ (e - ez).
Proof.
  intros Hle. unfold shl_align. destruct (ez - e) as [ | p | p] eqn:E; try lia.
  - replace (e - ez) with 0 by lia. simpl fst. lia.
  - simpl fst. rewrite iter_xO_Z. f_equal; try f_equal; lia.
Qed.

(** Subtraction of integers up to [2^53] is exact. *)
Lemma sub_exact (a b : Z) :
  0 <= a <= b -> b <= 2 ^ 53 -> sub (of_Z b) (of_Z a) = of_Z (b - a).
Proof.
  intros Hab Hb.
  destruct a as [ | va | va]; [ | | lia].
  - rewrite Z.sub_0_r. destruct b as [ | vb | vb]; [reflexivity | | lia].
    destruct (canon_exists vb Hb) as [wb Hwb].
    rewrite (of_Z_canon vb wb Hb Hwb). reflexivity.
  - destruct b as [ | vb | vb]; [lia | | lia].
    assert (Hva : Zpos va <= 2 ^ 53) by lia.
    destruct (canon_exists va Hva) as [wa Hwa].
    destruct (canon_exists vb Hb) as [wb Hwb].
    rewrite (of_Z_canon va wa Hva Hwa), (of_Z_canon vb wb Hb Hwb).
    unfold sub, SFsub. cbn [cond_Zopp].
    set (ta := Zpos (digits2_pos va) - 53).
    set (tb := Zpos (digits2_pos vb) - 53).
    rewrite !shl_align_Z by lia.
    destruct (Z.eq_dec (Zpos va) (Zpos vb)) as [Heq | Hne].
    + injection Heq as ->.
      assert (wa = wb) as ->.
      { apply Pos2Z.inj. unfold canon in Hwa, Hwb.
        assert (0 < 2 ^ Z.max (Zpos (digits2_pos vb) - 53) 0)
          by (apply Z.pow_pos_nonneg; lia).
        nia. }
      rewrite !Z.sub_diag. reflexivity.
    + assert (Hlt : Zpos va < Zpos vb) by lia.
      assert (Hta : ta <= 0).
      { unfold ta.
        destruct (Z.le_gt_cases (Zpos (digits2_pos va) - 53) 0) as [ | Hgt];
          [assumption | ].
        pose proof (digits2_pos_le va 53 ltac:(lia) Hva).
        pose proof (digits2_pos_full va 53 ltac:(lia) Hva ltac:(lia)). lia. }
      assert (Hez : Z.min tb ta <= 0) by lia.
      subst ta tb.
      rewrite (canon_scaled vb wb _ Hwb Hez ltac:(lia)).
      rewrite (canon_scaled va wa _ Hwa Hez ltac:(lia)).
      rewrite <- Z.mul_sub_distr_r.
      assert (Hd : 0 < Zpos vb - Zpos va <= 2 ^ 53) by lia.
      destruct (Zpos vb - Zpos va) as [ | vd | vd] eqn:Ed; try lia.
      destruct (canon_exists vd ltac:(lia)) as [wd Hwd].
      rewrite (of_Z_canon vd wd ltac:(lia) Hwd).
      assert (Hpos : 0 < Zpos vd * 2 ^ (- Z.min (Zpos (digits2_pos vb) - 53) (Zpos (digits2_pos va) - 53)))
        by (apply Z.mul_pos_pos; [lia | apply Z.pow_pos_nonneg; lia]).
      destruct (Zpos vd * 2 ^ (- Z.min (Zpos (digits2_pos vb) - 53) (Zpos (digits2_pos va) - 53))) as [ | M | M] eqn:EM; try lia.
      unfold binary_normalize.
      apply binary_round_canon; try assumption; lia.
Qed.

Lemma to_Z_of_Z (v : Z) : 0 <= v <= 2 ^ 53 -> to_Z (of_Z v) = Some v.
Proof.
  intros Hv. destruct v as [ | p | p]; [reflexivity | | lia].
  destruct (canon_exists p ltac:(lia)) as [w Hw].
  rewrite (of_Z_canon p w ltac:(lia) Hw).
  pose proof (digits2_pos_le p 53 ltac:(lia) ltac:(lia)) as Hd.
  unfold canon in Hw. unfold to_Z. cbn [cond_Zopp].
  destruct (Z.leb_spec 0 (Zpos (digits2_pos p) - 53)) as [Ht | Ht].
  - rewrite Z.max_l, Z.max_r, Z.pow_0_r, Z.mul_1_r in Hw by lia. congruence.
  - rewrite Z.max_r, Z.max_l, Z.pow_0_r, Z.mul_1_r in Hw by lia.
    assert (Hp2 : 0 < 2 ^ (- (Zpos (digits2_pos p) - 53)))
      by (apply Z.pow_pos_nonneg; lia).
    rewrite Hw, Z.mod_mul, Z.div_mul by lia. reflexivity.
Qed.

(** A safe integer prints as its decimal digits. *)
Lemma Number_toString_of_Z (other : number -> string) (v : Z) :
  0 <= v <= 2 ^ 53 -> Number_toString other (of_Z v) = Z_to_string v.
Proof.
  intros Hv. pose proof (to_Z_of_Z v Hv) as HZ.
  unfold Number_toString. rewrite HZ.
  replace (Z.abs v <=? 2 ^ 53) with true by (symmetry; apply Z.leb_le; lia).
  destruct (of_Z v); try reflexivity; discriminate HZ.
Qed.

End FloatFacts.

(** ** Decimal strings *)

Module StringFacts.
Import Js Units.

Lemma strip_leading_zeros_cons (c : ascii) (s : string) :
  strip_leading_zeros (String c s)
  = if Ascii.eqb c "0" then strip_leading_zeros s else String c s.
Proof.
  destruct c as [[] [] [] [] [] [] [] []]; reflexivity.
Qed.

Lemma is_digit_not_space (c : ascii) : is_digit c = true -> isWhiteSpace c = false.
Proof.
  destruct c as [[] [] [] [] [] [] [] []]; intro H; try reflexivity; discriminate H.
Qed.

Lemma is_digit_not_dot (c : ascii) : is_digit c = true -> Ascii.eqb c "." = false.
Proof.
  destruct c as [[] [] [] [] [] [] [] []]; intro H; try reflexivity; discriminate H.
Qed.

Lemma digit_of_digit (c : ascii) :
  is_digit c = true ->
  digit_of c = Some (Z.of_nat (nat_of_ascii c) - 48)
  /\ Z.of_nat (nat_of_ascii c) - 48 < 10.
Proof.
  unfold is_digit, digit_of. cbv zeta. intros H. rewrite H.
  apply andb_true_iff in H. destruct H as [_ H]. apply Z.leb_le in H.
  split; [reflexivity | lia].
Qed.

Lemma digits_value_decimal (s : string) (acc : Z) :
  is_digits s = true -> digits_value 10 s acc = Some (decimal_acc s acc).
Proof.
  revert acc. induction s as [ | c s IH]; intros acc H; simpl in *.
  - reflexivity.
  - apply andb_true_iff in H. destruct H as [Hc Hs].
    destruct (digit_of_digit c Hc) as [-> Hlt].
    replace (_ <? 10) with true by (symmetry; apply Z.ltb_lt; exact Hlt).
    apply IH, Hs.
Qed.

Lemma decimal_acc_shift (s : string) (acc : Z) :
  decimal_acc s acc = acc * 10 ^ Z.of_nat (String.length s) + decimal_value s.
Proof.
  unfold decimal_value. revert acc.
  induction s as [ | c s IH]; intro acc.
  - simpl. lia.
  - cbn [decimal_acc].
    set (d := Z.of_nat (nat_of_ascii c) - 48).
    rewrite (IH (acc * 10 + d)), (IH (0 * 10 + d)).
    change (String.length (String c s)) with (S (String.length s)).
    rewrite Nat2Z.inj_succ, Z.pow_succ_r by lia. ring.
Qed.

Lemma decimal_acc_app (s1 s2 : string) (acc : Z) :
  decimal_acc (s1 ++ s2) acc = decimal_acc s2 (decimal_acc s1 acc).
Proof.
  revert acc. induction s1 as [ | c s1 IH]; intro acc; simpl.
  - reflexivity.
  - apply IH.
Qed.

Lemma decimal_value_app (s1 s2 : string) :
  decimal_value (s1 ++ s2)
  = decimal_value s1 * 10 ^ Z.of_nat (String.length s2) + decimal_value s2.
Proof.
  unfold decimal_value at 1. rewrite decimal_acc_app, decimal_acc_shift.
  reflexivity.
Qed.

Lemma decimal_acc_nonneg (s : string) (acc : Z) :
  is_digits s = true -> 0 <= acc -> 0 <= decimal_acc s acc.
Proof.
  revert acc. induction s as [ | c s IH]; intros acc H Hacc; simpl in *.
  - exact Hacc.
  - apply andb_true_iff in H. destruct H as [Hc Hs].
    apply IH; [exact Hs | ].
    unfold is_digit in Hc. cbv zeta in Hc.
    apply andb_true_iff in Hc. destruct Hc as [Hlo _]. apply Z.leb_le in Hlo. lia.
Qed.

Lemma is_digits_app (s1 s2 : string) :
  is_digits (s1 ++ s2) = is_digits s1 && is_digits s2.
Proof.
  induction s1 as [ | c s1 IH]; simpl.
  - reflexivity.
  - rewrite IH, andb_assoc. reflexivity.
Qed.

Lemma trimEnd_digits (s : string) : is_digits s = true -> trimEnd s = s.
Proof.
  induction s as [ | c s IH]; intro H; simpl in *.
  - reflexivity.
  - apply andb_true_iff in H. destruct H as [Hc Hs].
    rewrite (is_digit_not_space c Hc), (IH Hs). reflexivity.
Qed.

Lemma trim_digits (s : string) : is_digits s = true -> trim s = s.
Proof.
  intro H. unfold trim.
  assert (trimStart s = s) as ->.
  { destruct s as [ | c s]; [reflexivity | ]. simpl in *.
    apply andb_true_iff in H. destruct H as [Hc _].
    rewrite (is_digit_not_space c Hc). reflexivity. }
  apply trimEnd_digits, H.
Qed.

(** A run of digits that does not start with [0] is read in base ten. *)
Lemma StringToBigInt_digits (c : ascii) (s : string) :
  is_digits (String c s) = true -> Ascii.eqb c "0" = false ->
  StringToBigInt (String c s) = Some (decimal_value (String c s)).
Proof.
  intros H Hc. unfold StringToBigInt. rewrite (trim_digits _ H).
  unfold decimal_value. rewrite <- (digits_value_decimal _ 0 H).
  simpl in H. apply andb_true_iff in H. destruct H as [Hd _].
  destruct c as [[] [] [] [] [] [] [] []];
    try discriminate Hd; try discriminate Hc; reflexivity.
Qed.

Lemma strip_leading_zeros_digits (s : string) :
  is_digits s = true ->
  is_digits (strip_leading_zeros s) = true
  /\ decimal_value (strip_leading_zeros s) = decimal_value s
  /\ match strip_leading_zeros s with
     | EmptyString => True
     | String c _ => Ascii.eqb c "0" = false
     end.
Proof.
  induction s as [ | c s IH]; intro H.
  - repeat split.
  - rewrite strip_leading_zeros_cons.
    pose proof H as H'. simpl in H'. apply andb_true_iff in H'. destruct H' as [Hc Hs].
    destruct (Ascii.eqb c "0") eqn:E.
    + apply Ascii.eqb_eq in E. subst c.
      destruct (IH Hs) as (H1 & H2 & H3). repeat split; assumption.
    + repeat split; assumption.
Qed.

(** What [BigInt] reads from the normalised digits. *)
Lemma BigInt_normalized (t : string) :
  is_digits t = true ->
  BigInt (if (strip_leading_zeros t =? "")%string then "0"
          else strip_leading_zeros t)
  = Ok (decimal_value t).
Proof.
  intro H. destruct (strip_leading_zeros_digits t H) as (H1 & H2 & H3).
  destruct (strip_leading_zeros t) as [ | c u] eqn:E.
  - simpl. rewrite <- H2. reflexivity.
  - replace ((String c u =? "")%string) with false by reflexivity.
    unfold BigInt. rewrite (StringToBigInt_digits c u H1 H3), H2. reflexivity.
Qed.

Lemma split_digits (s : string) : is_digits s = true -> split "." s = [s].
Proof.
  induction s as [ | c s IH]; intro H; simpl in *.
  - reflexivity.
  - apply andb_true_iff in H. destruct H as [Hc Hs].
    rewrite (is_digit_not_dot c Hc), (IH Hs). reflexivity.
Qed.

Lemma split_digits_dot (ip rest : string) :
  is_digits ip = true ->
  split "." (ip ++ String "." rest) = ip :: split "." rest.
Proof.
  induction ip as [ | c ip IH]; intro H; simpl in *.
  - reflexivity.
  - apply andb_true_iff in H. destruct H as [Hc Hs].
    rewrite (is_digit_not_dot c Hc), (IH Hs). reflexivity.
Qed.

Lemma length_repeat_zero (n : nat) : String.length (repeat_nat "0" n) = n.
Proof. induction n as [ | n IH]; simpl; congruence. Qed.

Lemma length_app (s1 s2 : string) :
  String.length (s1 ++ s2) = (String.length s1 + String.length s2)%nat.
Proof. induction s1 as [ | c s1 IH]; simpl; congruence. Qed.

Lemma substring_fit (n k : nat) (frac : string) :
  (n <= k)%nat -> substring 0 n (frac ++ repeat_nat "0" k) = fit n frac.
Proof.
  revert k frac. induction n as [ | n IH]; intros k frac Hle.
  - destruct (frac ++ repeat_nat "0" k); reflexivity.
  - destruct frac as [ | c frac].
    + destruct k as [ | k]; [lia | ].
      simpl. f_equal. apply (IH k ""). lia.
    + simpl. f_equal. apply IH. lia.
Qed.

Lemma slice0_fit (frac : string) (d : Z) :
  0 <= d -> slice0 (frac ++ repeat_nat "0" (Z.to_nat d)) d = fit (Z.to_nat d) frac.
Proof.
  intro Hd. unfold slice0.
  replace (d <? 0) with false by (symmetry; apply Z.ltb_ge; exact Hd).
  rewrite length_app, length_repeat_zero, Z.min_l by lia.
  apply substring_fit. lia.
Qed.

Lemma length_fit (d : nat) (frac : string) : String.length (fit d frac) = d.
Proof.
  revert frac. induction d as [ | d IH]; intro frac.
  - reflexivity.
  - destruct frac; simpl; rewrite IH; reflexivity.
Qed.

Lemma is_digits_fit (d : nat) (frac : string) :
  is_digits frac = true -> is_digits (fit d frac) = true.
Proof.
  revert frac. induction d as [ | d IH]; intros frac H.
  - reflexivity.
  - destruct frac as [ | c frac]; simpl in *.
    + apply (IH "" eq_refl).
    + apply andb_true_iff in H. destruct H as [Hc Hs].
      rewrite Hc. apply IH, Hs.
Qed.

Lemma decimal_value_zeros (d : nat) : decimal_value (fit d "") = 0.
Proof.
  unfold decimal_value. induction d as [ | d IH]; simpl.
  - reflexivity.
  - exact IH.
Qed.

(** The string branch of the conversion on digits with an optional
    fraction: integer digits followed by the fraction brought to [decimals]
    digits. *)
Lemma toUnitsByDecimals_string_parts (amount intPart frac : string) (d : Z) :
  nth 0 (split "." amount) "" = intPart ->
  nth 1 (split "." amount) "" = frac ->
  is_digits intPart = true -> is_digits frac = true -> 0 <= d ->
  toUnitsByDecimals_string amount d
  = Ok (decimal_value (intPart ++ fit (Z.to_nat d) frac)).
Proof.
  intros H0 H1 Hi Hf Hd. unfold toUnitsByDecimals_string. cbv zeta.
  rewrite H0, H1. unfold repeat.
  replace (d <? 0) with false by (symmetry; apply Z.ltb_ge; exact Hd).
  rewrite slice0_fit by exact Hd.
  apply BigInt_normalized.
  rewrite is_digits_app, Hi, is_digits_fit by exact Hf. reflexivity.
Qed.

Lemma toUnitsByDecimals_string_fraction (intPart frac : string) (d : Z) :
  is_digits intPart = true -> is_digits frac = true -> 0 <= d ->
  toUnitsByDecimals_string (intPart ++ String "." frac) d
  = Ok (decimal_value (intPart ++ fit (Z.to_nat d) frac)).
Proof.
  intros Hi Hf Hd.
  apply toUnitsByDecimals_string_parts; try assumption;
    rewrite (split_digits_dot _ _ Hi), (split_digits _ Hf); reflexivity.
Qed.

Lemma toUnitsByDecimals_string_integer (a : string) (d : Z) :
  is_digits a = true -> 0 <= d ->
  toUnitsByDecimals_string a d = Ok (decimal_value a * 10 ^ d).
Proof.
  intros Ha Hd.
  rewrite (toUnitsByDecimals_string_parts a a "" d);
    try assumption; try reflexivity;
    try (rewrite (split_digits _ Ha); reflexivity).
  rewrite decimal_value_app, length_fit, decimal_value_zeros, Z2Nat.id by lia.
  f_equal. lia.
Qed.

End StringFacts.

(* ================================================================== *)
(** * Facts about the client's runs *)
(* ================================================================== *)

Module ClientFacts.
Import Js Zether.
Local Open Scope list_scope.

Ltac step :=
  cbn [bind fst snd app decode read emit ret throw lift await submit
       prove_burn prove_transfer observe].

Lemma stimulateAccount_answers this BasicZether publicClient accountData :
  answers this BasicZether publicClient accountData ->
  stimulateAccount this BasicZether publicClient
  = ([ Read R_epochLength; Read R_getBlockNumber;
       Read (R_simulateAccounts [this_publicKey this]
               (Z.quot (getBlockNumber publicClient)
                       (read_epochLength BasicZether))) ],
     Ok accountData).
Proof.
  intros [Hel [rest Hsim]].
  unfold stimulateAccount. step. unfold bigint_div.
  apply Z.eqb_neq in Hel. rewrite Hel. step. rewrite Hsim. reflexivity.
Qed.

Lemma require_balance_falsy cur_b :
  falsy cur_b = true ->
  require_balance cur_b = ([], Throw (Error "Current balance is undefined")).
Proof.
  intro H. unfold require_balance. destruct cur_b; [rewrite H | ]; reflexivity.
Qed.

Lemma require_balance_truthy b :
  falsy (Some b) = false -> require_balance (Some b) = ([], Ok b).
Proof. intro H. unfold require_balance. rewrite H. reflexivity. Qed.

(** A balance that is missing or falsy stops both operations right after
    their reads. *)
Lemma run_no_balance U R this BasicZether publicClient account amount accountData o :
  answers this BasicZether publicClient accountData ->
  falsy (readBalanceWithOnchainData U accountData (this_privateKey this)) = true ->
  run U R this BasicZether publicClient account amount o
  = (calls_before_check U this BasicZether publicClient accountData o,
     Some (Error "Current balance is undefined")).
Proof.
  intros Ha Hf. destruct o as [ | receiver]; unfold run, burn, transfer;
    rewrite (stimulateAccount_answers _ _ _ _ Ha); step;
    rewrite (require_balance_falsy _ Hf); reflexivity.
Qed.

Lemma run_rejected U R this BasicZether publicClient account amount accountData
    cur_b amount' o reason :
  answers this BasicZether publicClient accountData ->
  readBalanceWithOnchainData U accountData (this_privateKey this) = Some cur_b ->
  falsy (Some cur_b) = false ->
  parses o amount amount' ->
  prover_answer U (witness_of U R this BasicZether accountData cur_b amount amount' o)
  = inl reason ->
  run U R this BasicZether publicClient account amount o
  = ((calls_before_check U this BasicZether publicClient accountData o
      ++ [Prove (witness_of U R this BasicZether accountData cur_b amount amount' o)])%list,
     Some (Rejected reason)).
Proof.
  intros Ha Hb Hf Hp Hr. destruct o as [ | receiver]; unfold run, burn, transfer;
    rewrite (stimulateAccount_answers _ _ _ _ Ha); step;
    rewrite Hb, (require_balance_truthy _ Hf); step.
  - cbn [witness_of prover_answer] in Hr. rewrite Hr. reflexivity.
  - cbn [parses] in Hp. rewrite Hp. step.
    cbn [witness_of] in Hr |- *.
    destruct (createTransferInput U _ _ _ _) as [[C_send C_receive] D'].
    cbn [prover_answer] in Hr. step. rewrite Hr. reflexivity.
Qed.

Lemma run_proves U R this BasicZether publicClient account amount accountData
    cur_b amount' o :
  answers this BasicZether publicClient accountData ->
  readBalanceWithOnchainData U accountData (this_privateKey this) = Some cur_b ->
  falsy (Some cur_b) = false ->
  parses o amount amount' ->
  exists rest,
    fst (run U R this BasicZether publicClient account amount o)
    = (calls_before_check U this BasicZether publicClient accountData o
       ++ Prove (witness_of U R this BasicZether accountData cur_b amount amount' o)
          :: rest)%list.
Proof.
  intros Ha Hb Hf Hp. destruct o as [ | receiver]; unfold run, burn, transfer;
    rewrite (stimulateAccount_answers _ _ _ _ Ha); step;
    rewrite Hb, (require_balance_truthy _ Hf); step.
  - cbn [witness_of].
    destruct (generateBurnProof U _) as [reason | proof]; step.
    + exists []. reflexivity.
    + match goal with |- context [bind ?m ?k] => destruct (bind m k) as [t r] end.
      exists t. reflexivity.
  - cbn [parses] in Hp. rewrite Hp. step. cbn [witness_of].
    destruct (createTransferInput U _ _ _ _) as [[C_send C_receive] D'].
    step.
    destruct (generateTransferProof U _) as [reason | proof]; step.
    + exists []. reflexivity.
    + match goal with |- context [bind ?m ?k] => destruct (bind m k) as [t r] end.
      exists t. reflexivity.
Qed.

(** *** Writes come last *)

Lemma no_write_bind {A B : Type} (m : M A) (k : A -> M B) :
  no_write m -> (forall a, no_write (k a)) -> no_write (bind m k).
Proof.
  unfold no_write, writes. intros Hm Hk.
  destruct m as [t [a | e]]; cbn [bind fst] in *.
  - specialize (Hk a). destruct (k a) as [t' r']. cbn [fst] in *.
    rewrite filter_app, Hm, Hk. reflexivity.
  - exact Hm.
Qed.

Lemma fails_before_write_bind {A B : Type} (m : M A) (k : A -> M B) :
  no_write m -> (forall a, fails_before_write (k a)) ->
  fails_before_write (bind m k).
Proof.
  unfold no_write, fails_before_write, writes. intros Hm Hk e.
  destruct m as [t [a | e']]; cbn [bind fst snd] in *.
  - specialize (Hk a e). destruct (k a) as [t' r']. cbn [fst snd] in *.
    intros Hr Hl. rewrite filter_app, Hm, (Hk Hr Hl). reflexivity.
  - intros _ _. exact Hm.
Qed.

Lemma no_write_fails_before_write {A : Type} (m : M A) :
  no_write m -> fails_before_write m.
Proof. intros H e _ _. exact H. Qed.

Lemma no_write_pure {A : Type} (o : outcome A) : no_write (([], o) : M A).
Proof. reflexivity. Qed.

Lemma no_write_lift {A : Type} (o : outcome A) : no_write (lift o).
Proof. reflexivity. Qed.

Lemma no_write_await {A : Type} (p : string + A) : no_write (await p).
Proof. destruct p; reflexivity. Qed.

Lemma no_write_read {A : Type} (c : read_call) (a : A) : no_write (read c a).
Proof. reflexivity. Qed.

Lemma no_write_decode U d sk : no_write (decode U d sk).
Proof. reflexivity. Qed.

Lemma no_write_require_balance cur_b : no_write (require_balance cur_b).
Proof.
  unfold require_balance. destruct cur_b as [b | ]; [ | reflexivity].
  destruct (falsy (Some b)); reflexivity.
Qed.

Lemma no_write_prove_burn U i : no_write (prove_burn U i).
Proof. unfold prove_burn. destruct (generateBurnProof U i); reflexivity. Qed.

Lemma no_write_prove_transfer U i : no_write (prove_transfer U i).
Proof. unfold prove_transfer. destruct (generateTransferProof U i); reflexivity. Qed.

Lemma no_write_stimulateAccount this BasicZether publicClient :
  no_write (stimulateAccount this BasicZether publicClient).
Proof.
  unfold stimulateAccount.
  repeat (apply no_write_bind;
          [first [apply no_write_read | apply no_write_lift] | intro]).
  match goal with
  | |- no_write (match ?l with _ => _ end) => destruct l; reflexivity
  end.
Qed.

(** A submission ends in a revert or in success, never in a local error. *)
Lemma fails_before_write_submit BasicZether from c :
  fails_before_write (submit BasicZether from c).
Proof.
  unfold fails_before_write, submit. cbn [bind emit].
  destruct (write BasicZether from c); cbn; intros e He Hl.
  - injection He as <-. discriminate Hl.
  - discriminate He.
Qed.

Lemma fails_before_write_submit_then {B : Type} BasicZether from c (f : string -> B) :
  fails_before_write (bind (submit BasicZether from c) (fun res => ret (f res))).
Proof.
  unfold fails_before_write, submit. cbn [bind emit].
  destruct (write BasicZether from c); cbn; intros e He Hl.
  - injection He as <-. discriminate Hl.
  - discriminate He.
Qed.

Lemma fails_before_write_burn U R this BasicZether publicClient account amount :
  fails_before_write (burn U R this BasicZether publicClient account amount).
Proof.
  unfold burn.
  apply fails_before_write_bind; [apply no_write_stimulateAccount | intro accountData].
  apply fails_before_write_bind; [apply no_write_decode | intro cur_b].
  apply fails_before_write_bind; [apply no_write_read | intro counter].
  apply fails_before_write_bind; [apply no_write_require_balance | intro b].
  apply fails_before_write_bind; [apply no_write_prove_burn | intro proof].
  apply fails_before_write_bind; [apply no_write_await | intro calldata].
  apply fails_before_write_bind; [apply no_write_lift | intro amount'].
  apply fails_before_write_submit_then.
Qed.

Lemma fails_before_write_transfer U R this BasicZether publicClient account amount
    receiverPublicKey :
  fails_before_write
    (transfer U R this BasicZether publicClient account amount receiverPublicKey).
Proof.
  unfold transfer.
  apply fails_before_write_bind; [apply no_write_stimulateAccount | intro accountData].
  apply fails_before_write_bind; [apply no_write_decode | intro cur_b].
  apply fails_before_write_bind; [apply no_write_read | intro counter].
  apply fails_before_write_bind; [apply no_write_read | intro MAX].
  apply fails_before_write_bind; [apply no_write_require_balance | intro b].
  apply fails_before_write_bind; [apply no_write_lift | intro amount'].
  destruct (createTransferInput U _ _ _ _) as [[C_send C_receive] D'].
  apply fails_before_write_bind; [apply no_write_prove_transfer | intro proof].
  apply fails_before_write_bind; [apply no_write_await | intro calldata].
  apply fails_before_write_submit.
Qed.

End ClientFacts.

(* ================================================================== *)
(** * Further facts about the runtime and the runs *)
(* ================================================================== *)

(** ** Doubles that hold negative integers *)

Module SignedFloatFacts.
Import Js FloatFacts.

Lemma of_Z_neg_canon (v w : positive) :
  Zpos v <= 2 ^ 53 -> canon v w ->
  of_Z (Zneg v) = S754_finite true w (Zpos (digits2_pos v) - 53).
Proof.
  intros Hv Hc. unfold of_Z, binary_normalize.
  apply binary_round_canon; try assumption; try lia.
Qed.

(** The difference of two naturals up to [2^53] is exact, whatever its
    sign. *)
Lemma sub_exact_signed (a b : Z) :
  0 <= a <= 2 ^ 53 -> 0 <= b <= 2 ^ 53 -> sub (of_Z b) (of_Z a) = of_Z (b - a).
Proof.
  intros Ha Hb.
  destruct (Z.le_gt_cases a b) as [Hle | Hgt]; [apply sub_exact; lia | ].
  destruct a as [ | va | va]; try lia.
  destruct (canon_exists va ltac:(lia)) as [wa Hwa].
  destruct b as [ | vb | vb]; try lia.
  - rewrite (of_Z_canon va wa ltac:(lia) Hwa).
    change (0 - Zpos va) with (Zneg va).
    rewrite (of_Z_neg_canon va wa ltac:(lia) Hwa). reflexivity.
  - destruct (canon_exists vb ltac:(lia)) as [wb Hwb].
    rewrite (of_Z_canon va wa ltac:(lia) Hwa), (of_Z_canon vb wb ltac:(lia) Hwb).
    unfold sub, SFsub. cbn [cond_Zopp].
    rewrite !shl_align_Z by lia.
    assert (Htb : Zpos (digits2_pos vb) - 53 <= 0).
    { destruct (Z.le_gt_cases (Zpos (digits2_pos vb) - 53) 0) as [ | Hg];
        [assumption | ].
      pose proof (digits2_pos_le vb 53 ltac:(lia) ltac:(lia)).
      pose proof (digits2_pos_full vb 53 ltac:(lia) ltac:(lia) ltac:(lia)). lia. }
    assert (Hez : Z.min (Zpos (digits2_pos vb) - 53) (Zpos (digits2_pos va) - 53) <= 0)
      by lia.
    rewrite (canon_scaled vb wb _ Hwb Hez ltac:(lia)).
    rewrite (canon_scaled va wa _ Hwa Hez ltac:(lia)).
    rewrite <- Z.mul_sub_distr_r.
    assert (Hd : 0 < Zpos va - Zpos vb <= 2 ^ 53) by lia.
    destruct (Zpos vb - Zpos va) as [ | vd | vd] eqn:Ed; try lia.
    destruct (canon_exists vd ltac:(lia)) as [wd Hwd].
    rewrite (of_Z_neg_canon vd wd ltac:(lia) Hwd).
    set (k := - Z.min (Zpos (digits2_pos vb) - 53) (Zpos (digits2_pos va) - 53)) in *.
    assert (Hpos : 0 < Zpos vd * 2 ^ k)
      by (apply Z.mul_pos_pos; [lia | apply Z.pow_pos_nonneg; lia]).
    replace (Zneg vd * 2 ^ k) with (- (Zpos vd * 2 ^ k)) by lia.
    destruct (Zpos vd * 2 ^ k) as [ | M | M] eqn:EM; try lia.
    change (- Zpos M) with (Zneg M). unfold binary_normalize.
    subst k. apply binary_round_canon; try assumption; lia.
Qed.

Lemma to_Z_of_Z_signed (v : Z) : Z.abs v <= 2 ^ 53 -> to_Z (of_Z v) = Some v.
Proof.
  intros Hv. destruct v as [ | p | p]; [reflexivity | apply to_Z_of_Z; lia | ].
  destruct (canon_exists p ltac:(lia)) as [w Hw].
  rewrite (of_Z_neg_canon p w ltac:(lia) Hw).
  pose proof (to_Z_of_Z (Zpos p) ltac:(lia)) as Hp.
  rewrite (of_Z_canon p w ltac:(lia) Hw) in Hp.
  set (t := Zpos (digits2_pos p) - 53) in *.
  unfold to_Z, cond_Zopp in Hp |- *.
  destruct (0 <=? t).
  - assert (H : Zpos w * 2 ^ t = Zpos p) by congruence.
    rewrite H. reflexivity.
  - destruct (_ =? 0); [ | discriminate Hp].
    assert (H : Zpos w / 2 ^ (- t) = Zpos p) by congruence.
    rewrite H. reflexivity.
Qed.

Lemma Number_toString_of_Z_signed (other : number -> string) (v : Z) :
  Z.abs v <= 2 ^ 53 -> Number_toString other (of_Z v) = Z_to_string v.
Proof.
  intros Hv. pose proof (to_Z_of_Z_signed v Hv) as HZ.
  unfold Number_toString. rewrite HZ.
  replace (Z.abs v <=? 2 ^ 53) with true by (symmetry; apply Z.leb_le; lia).
  destruct (of_Z v); try reflexivity; discriminate HZ.
Qed.

End SignedFloatFacts.

(** ** Decimal digits of bigints, signs and fractions *)

Module DecimalFacts.
Import Js Units StringFacts.

(** *** Printing a bigint and reading it back *)

Lemma is_digits_string_of_uint (u : Decimal.uint) :
  is_digits (NilEmpty.string_of_uint u) = true.
Proof. induction u; simpl; try rewrite IHu; reflexivity. Qed.

Lemma decimal_acc_of_uint_acc (u : Decimal.uint) (acc : positive) :
  decimal_acc (NilEmpty.string_of_uint u) (Zpos acc) = Zpos (Pos.of_uint_acc u acc).
Proof.
  revert acc. induction u; intro acc; cbn [NilEmpty.string_of_uint Pos.of_uint_acc decimal_acc];
    [reflexivity
    | rewrite <- IHu; f_equal;
      match goal with
      | |- context [Z.of_nat (nat_of_ascii ?c)] =>
          let n := eval vm_compute in (Z.of_nat (nat_of_ascii c)) in
          change (Z.of_nat (nat_of_ascii c)) with n
      end; lia ..].
Qed.

Lemma decimal_value_string_of_uint (u : Decimal.uint) :
  decimal_value (NilEmpty.string_of_uint u) = Z.of_N (Pos.of_uint u).
Proof.
  unfold decimal_value.
  induction u; cbn [NilEmpty.string_of_uint Pos.of_uint decimal_acc];
    [reflexivity | exact IHu | apply (decimal_acc_of_uint_acc u) ..].
Qed.

(** The decimal digits of a natural number write that number. *)
Lemma Z_to_string_digits (z : Z) :
  0 <= z ->
  is_digits (Z_to_string z) = true
  /\ decimal_value (Z_to_string z) = z
  /\ Z_to_string z <> "".
Proof.
  intros Hz. destruct z as [ | p | p]; [repeat split; discriminate | | lia].
  unfold Z_to_string. cbn [Z.to_int NilZero.string_of_int].
  pose proof (Unsigned.to_uint_nonnil p) as Hnil.
  pose proof (Unsigned.of_to p) as Hof.
  destruct (Pos.to_uint p) as [ | u | u | u | u | u | u | u | u | u | u] eqn:E;
    [congruence | ..];
    cbn [NilZero.string_of_uint]; rewrite <- E in *;
    (split; [apply is_digits_string_of_uint | split;
      [rewrite decimal_value_string_of_uint, Hof; reflexivity
      | rewrite E; discriminate]]).
Qed.

(** A non-empty run of digits is read in base ten, leading zeros or not. *)
Lemma StringToBigInt_all_digits (t : string) :
  is_digits t = true -> t <> "" -> StringToBigInt t = Some (decimal_value t).
Proof.
  intros H Hne. destruct t as [ | c s]; [congruence | ].
  destruct (Ascii.eqb c "0") eqn:Ec;
    [ | apply StringToBigInt_digits; assumption].
  apply Ascii.eqb_eq in Ec. subst c.
  unfold StringToBigInt. rewrite (trim_digits _ H).
  unfold decimal_value. rewrite <- (digits_value_decimal _ 0 H).
  destruct s as [ | c2 s2]; [reflexivity | ].
  assert (Hc2 : is_digit c2 = true).
  { simpl in H. apply andb_true_iff in H. apply H. }
  destruct c2 as [[] [] [] [] [] [] [] []]; try discriminate Hc2; reflexivity.
Qed.

Lemma trim_minus_digits (t : string) :
  is_digits t = true -> trim (String "-" t) = String "-" t.
Proof.
  intro H. unfold trim.
  change (trimStart (String "-" t)) with (String "-" t).
  change (trimEnd (String "-" t)) with (String "-" (trimEnd t)).
  rewrite (trimEnd_digits t H). reflexivity.
Qed.

(** A minus sign before a non-empty run of digits negates its value. *)
Lemma StringToBigInt_minus_digits (t : string) :
  is_digits t = true -> t <> "" ->
  StringToBigInt (String "-" t) = Some (- decimal_value t).
Proof.
  intros H Hne. unfold StringToBigInt. rewrite (trim_minus_digits t H).
  cbn match. unfold digits1.
  destruct t as [ | c s]; [congruence | ].
  rewrite (digits_value_decimal _ 0 H). reflexivity.
Qed.

(** [BigInt(z.toString())] is [z]. *)
Lemma BigInt_Z_to_string (z : Z) : BigInt (Z_to_string z) = Ok z.
Proof.
  unfold BigInt. destruct z as [ | p | p].
  - reflexivity.
  - destruct (Z_to_string_digits (Zpos p) ltac:(lia)) as (Hd & Hv & Hne).
    rewrite (StringToBigInt_all_digits _ Hd Hne), Hv. reflexivity.
  - destruct (Z_to_string_digits (Zpos p) ltac:(lia)) as (Hd & Hv & Hne).
    change (Z_to_string (Zneg p)) with (String "-" (Z_to_string (Zpos p))).
    rewrite (StringToBigInt_minus_digits _ Hd Hne), Hv. reflexivity.
Qed.

(** *** The value of a cut or filled fraction *)

Lemma decimal_value_bound (s : string) :
  is_digits s = true -> 0 <= decimal_value s < 10 ^ Z.of_nat (String.length s).
Proof.
  induction s as [ | c s IH]; intro H.
  - unfold decimal_value. simpl. lia.
  - simpl in H. apply andb_true_iff in H. destruct H as [Hc Hs].
    specialize (IH Hs).
    unfold decimal_value. cbn [decimal_acc]. rewrite decimal_acc_shift.
    change (String.length (String c s)) with (S (String.length s)).
    rewrite Nat2Z.inj_succ, Z.pow_succ_r by lia.
    unfold is_digit in Hc. cbv zeta in Hc.
    apply andb_true_iff in Hc. destruct Hc as [Hlo Hhi].
    apply Z.leb_le in Hlo. apply Z.leb_le in Hhi.
    assert (0 < 10 ^ Z.of_nat (String.length s)) by (apply Z.pow_pos_nonneg; lia).
    nia.
Qed.

(** Bringing a fraction to [d] digits divides, rounding down. *)
Lemma decimal_acc_fit (d : nat) (frac : string) (acc : Z) :
  is_digits frac = true ->
  decimal_acc (fit d frac) acc
  = (decimal_acc frac acc * 10 ^ Z.of_nat d) / 10 ^ Z.of_nat (String.length frac).
Proof.
  revert frac acc. induction d as [ | d IH]; intros frac acc H.
  - cbn [fit decimal_acc]. rewrite Z.pow_0_r, Z.mul_1_r, decimal_acc_shift.
    pose proof (decimal_value_bound frac H).
    rewrite Z.div_add_l, Z.div_small by lia. lia.
  - destruct frac as [ | c frac].
    + cbn [fit decimal_acc String.length]. rewrite (IH "" _ eq_refl).
      cbn [decimal_acc String.length]. change (Z.of_nat 0) with 0.
      rewrite Z.pow_0_r, !Z.div_1_r, Nat2Z.inj_succ, Z.pow_succ_r by lia.
      change (Z.of_nat (nat_of_ascii "0") - 48) with 0. ring.
    + simpl in H. apply andb_true_iff in H. destruct H as [Hc Hs].
      cbn [fit decimal_acc]. rewrite (IH frac _ Hs).
      change (String.length (String c frac)) with (S (String.length frac)).
      rewrite !Nat2Z.inj_succ, !Z.pow_succ_r by lia.
      set (X := decimal_acc frac _).
      replace (X * (10 * 10 ^ Z.of_nat d)) with (X * 10 ^ Z.of_nat d * 10) by ring.
      replace (10 * 10 ^ Z.of_nat (String.length frac))
        with (10 ^ Z.of_nat (String.length frac) * 10) by ring.
      rewrite Z.div_mul_cancel_r; [reflexivity | | lia].
      apply Z.pow_nonzero; lia.
Qed.

Lemma decimal_value_fit (intPart frac : string) (d : nat) :
  is_digits frac = true ->
  decimal_value (intPart ++ fit d frac)
  = (decimal_value (intPart ++ frac) * 10 ^ Z.of_nat d)
    / 10 ^ Z.of_nat (String.length frac).
Proof.
  intro H. unfold decimal_value.
  rewrite !decimal_acc_app. apply decimal_acc_fit, H.
Qed.

(** *** Strings with a sign or with more than one point *)

Lemma split_minus (s : string) :
  nth 0 (split "." (String "-" s)) "" = String "-" (nth 0 (split "." s) "")
  /\ nth 1 (split "." (String "-" s)) "" = nth 1 (split "." s) "".
Proof.
  change (split "." (String "-" s))
    with (match split "." s with
          | h :: t => String "-" h :: t
          | [] => [String "-" ""]
          end).
  destruct s as [ | c s]; [split; reflexivity | ].
  cbn [split]. destruct (Ascii.eqb c "."); [split; reflexivity | ].
  destruct (split "." s); split; reflexivity.
Qed.

Lemma split_two_parts (intPart frac rest : string) :
  is_digits intPart = true -> is_digits frac = true ->
  nth 0 (split "." (intPart ++ String "." (frac ++ String "." rest))) "" = intPart
  /\ nth 1 (split "." (intPart ++ String "." (frac ++ String "." rest))) "" = frac.
Proof.
  intros Hi Hf.
  rewrite (split_digits_dot _ _ Hi), (split_digits_dot _ _ Hf).
  split; reflexivity.
Qed.

(** The string branch on a negative decimal: the digits are scaled as for a
    positive one and the sign is kept. *)
Lemma toUnitsByDecimals_string_parts_minus (amount intPart frac : string) (d : Z) :
  nth 0 (split "." amount) "" = String "-" intPart ->
  nth 1 (split "." amount) "" = frac ->
  is_digits intPart = true -> is_digits frac = true -> 0 <= d ->
  intPart <> "" ->
  toUnitsByDecimals_string amount d
  = Ok (- decimal_value (intPart ++ fit (Z.to_nat d) frac)).
Proof.
  intros H0 H1 Hi Hf Hd Hne. unfold toUnitsByDecimals_string. cbv zeta.
  rewrite H0, H1. unfold repeat.
  replace (d <? 0) with false by (symmetry; apply Z.ltb_ge; exact Hd).
  rewrite slice0_fit by exact Hd.
  change (String "-" intPart ++ fit (Z.to_nat d) frac)
    with (String "-" (intPart ++ fit (Z.to_nat d) frac)).
  change (strip_leading_zeros (String "-" (intPart ++ fit (Z.to_nat d) frac)))
    with (String "-" (intPart ++ fit (Z.to_nat d) frac)).
  cbn [String.eqb]. unfold BigInt.
  rewrite StringToBigInt_minus_digits; [reflexivity | | ].
  - rewrite is_digits_app, Hi, is_digits_fit by exact Hf. reflexivity.
  - destruct intPart; [congruence | discriminate].
Qed.

End DecimalFacts.

(** ** Numbers given to [toUnitsByDecimals] *)

Module NumberFacts.
Import Js Units StringFacts.

(** A number that is an integer of magnitude at most [2^53] is scaled by
    [10 ^ decimals]. *)
Lemma toUnitsByDecimals_integer_number (other : number -> string) (decimals n : Z) :
  Z.abs n <= 2 ^ 53 -> 0 <= decimals ->
  toUnitsByDecimals other (ANumber (of_Z n)) decimals = Ok (n * 10 ^ decimals).
Proof.
  intros Hn Hd. cbn [toUnitsByDecimals].
  rewrite (SignedFloatFacts.Number_toString_of_Z_signed other n Hn).
  destruct n as [ | p | p].
  - apply (toUnitsByDecimals_string_integer "0" decimals eq_refl Hd).
  - destruct (DecimalFacts.Z_to_string_digits (Zpos p) ltac:(lia)) as (H1 & H2 & _).
    rewrite (toUnitsByDecimals_string_integer _ _ H1 Hd), H2. reflexivity.
  - destruct (DecimalFacts.Z_to_string_digits (Zpos p) ltac:(lia)) as (H1 & H2 & H3).
    change (Z_to_string (Zneg p)) with (String "-" (Z_to_string (Zpos p))).
    destruct (DecimalFacts.split_minus (Z_to_string (Zpos p))) as [H0 H0'].
    rewrite (split_digits _ H1) in H0, H0'. cbn [nth] in H0, H0'.
    rewrite (DecimalFacts.toUnitsByDecimals_string_parts_minus _ _ _ _ H0 H0' H1
               eq_refl Hd H3).
    rewrite decimal_value_app, length_fit, decimal_value_zeros, H2, Z2Nat.id by lia.
    f_equal. lia.
Qed.

(** [BigInt] rejects these texts, whatever zeros follow. *)
Lemma BigInt_text_then_zeros (d : nat) :
  BigInt ("NaN" ++ fit d "") = Throw SyntaxError
  /\ BigInt ("Infinity" ++ fit d "") = Throw SyntaxError
  /\ BigInt ("-Infinity" ++ fit d "") = Throw SyntaxError.
Proof.
  unfold BigInt, StringToBigInt, trim. repeat split.
Qed.

(** [NaN] and the infinities print as text, which [BigInt] rejects. *)
Lemma toUnitsByDecimals_not_a_finite_number (other : number -> string)
    (decimals : Z) (s : bool) :
  0 <= decimals ->
  toUnitsByDecimals other (ANumber S754_nan) decimals = Throw SyntaxError
  /\ toUnitsByDecimals other (ANumber (S754_infinity s)) decimals
     = Throw SyntaxError.
Proof.
  intro Hd. destruct (BigInt_text_then_zeros (Z.to_nat decimals)) as (H1 & H2 & H3).
  cbn [toUnitsByDecimals Number_toString]. unfold toUnitsByDecimals_string, repeat.
  cbv zeta.
  replace (decimals <? 0) with false by (symmetry; apply Z.ltb_ge; exact Hd).
  split; [ | destruct s].
  - change (nth 0 (split "." "NaN") "") with "NaN".
    change (nth 1 (split "." "NaN") "") with "".
    rewrite (slice0_fit "" decimals Hd). exact H1.
  - change (nth 0 (split "." "-Infinity") "") with "-Infinity".
    change (nth 1 (split "." "-Infinity") "") with "".
    rewrite (slice0_fit "" decimals Hd). exact H3.
  - change (nth 0 (split "." "Infinity") "") with "Infinity".
    change (nth 1 (split "." "Infinity") "") with "".
    rewrite (slice0_fit "" decimals Hd). exact H2.
Qed.

End NumberFacts.

(** ** Runs that reach the prover and the ledger *)

Module RunFacts.
Import Js Zether Submission ClientFacts.
Local Open Scope list_scope.

(** A [stimulateAccount] that returns has been answered. *)
Lemma stimulateAccount_Ok_answers this BasicZether publicClient accountData :
  snd (stimulateAccount this BasicZether publicClient) = Ok accountData ->
  answers this BasicZether publicClient accountData.
Proof.
  unfold stimulateAccount, answers. step. unfold bigint_div.
  destruct (read_epochLength BasicZether =? 0) eqn:E; step; [discriminate | ].
  apply Z.eqb_neq in E.
  destruct (read_simulateAccounts BasicZether _ _) as [ | d rest]; step;
    [discriminate | ].
  intro H. injection H as ->. split; [exact E | exists rest; reflexivity].
Qed.

Lemma stimulateAccount_zero_epochLength this BasicZether publicClient :
  read_epochLength BasicZether = 0 ->
  stimulateAccount this BasicZether publicClient
  = ([Read R_epochLength; Read R_getBlockNumber], Throw RangeError).
Proof.
  intro H. unfold stimulateAccount. step. unfold bigint_div. rewrite H. reflexivity.
Qed.

(** *** One write, at the end *)

Lemma submits_at_end_bind {A B : Type} BasicZether from (m : M A) (k : A -> M B) :
  no_write m -> (forall a, submits_at_end BasicZether from (k a)) ->
  submits_at_end BasicZether from (bind m k).
Proof.
  unfold no_write, submits_at_end, writes. intros Hm Hk.
  destruct m as [t [a | e]]; cbn [bind fst snd] in *.
  - specialize (Hk a). destruct (k a) as [t' r']. cbn [fst snd] in *.
    destruct Hk as [Hk | (t0 & c & Ht & Hw & Hr)].
    + left. rewrite filter_app, Hm, Hk. reflexivity.
    + right. exists (t ++ t0), c. subst t'.
      rewrite app_assoc, filter_app, Hm, Hw. repeat split. exact Hr.
  - left. exact Hm.
Qed.

Lemma submits_at_end_submit BasicZether from c :
  submits_at_end BasicZether from (submit BasicZether from c).
Proof.
  right. exists [], c. unfold submit. step.
  destruct (write BasicZether from c); cbn; repeat split; eexists; reflexivity.
Qed.

Lemma submits_at_end_submit_then {B : Type} BasicZether from c (f : string -> B) :
  submits_at_end BasicZether from
    (bind (submit BasicZether from c) (fun res => ret (f res))).
Proof.
  right. exists [], c. unfold submit. step.
  destruct (write BasicZether from c); cbn; repeat split; eexists; reflexivity.
Qed.

Lemma submits_at_end_burn U R this BasicZether publicClient account amount :
  submits_at_end BasicZether (Some account)
    (burn U R this BasicZether publicClient account amount).
Proof.
  unfold burn.
  apply submits_at_end_bind; [apply no_write_stimulateAccount | intro accountData].
  apply submits_at_end_bind; [apply no_write_decode | intro cur_b].
  apply submits_at_end_bind; [apply no_write_read | intro counter].
  apply submits_at_end_bind; [apply no_write_require_balance | intro b].
  apply submits_at_end_bind; [apply no_write_prove_burn | intro proof].
  apply submits_at_end_bind; [apply no_write_await | intro calldata].
  apply submits_at_end_bind; [apply no_write_lift | intro amount'].
  apply submits_at_end_submit_then.
Qed.

Lemma submits_at_end_transfer U R this BasicZether publicClient account amount
    receiverPublicKey :
  submits_at_end BasicZether (Some account)
    (transfer U R this BasicZether publicClient account amount receiverPublicKey).
Proof.
  unfold transfer.
  apply submits_at_end_bind; [apply no_write_stimulateAccount | intro accountData].
  apply submits_at_end_bind; [apply no_write_decode | intro cur_b].
  apply submits_at_end_bind; [apply no_write_read | intro counter].
  apply submits_at_end_bind; [apply no_write_read | intro MAX].
  apply submits_at_end_bind; [apply no_write_require_balance | intro b].
  apply submits_at_end_bind; [apply no_write_lift | intro amount'].
  destruct (createTransferInput U _ _ _ _) as [[C_send C_receive] D'].
  apply submits_at_end_bind; [apply no_write_prove_transfer | intro proof].
  apply submits_at_end_bind; [apply no_write_await | intro calldata].
  apply submits_at_end_submit.
Qed.

(** [burn] reads its amount as a bigint only after the proof is there. *)
Lemma run_burn_malformed U R this BasicZether publicClient account amount accountData
    cur_b proof calldata :
  answers this BasicZether publicClient accountData ->
  readBalanceWithOnchainData U accountData (this_privateKey this) = Some cur_b ->
  falsy (Some cur_b) = false ->
  StringToBigInt amount = None ->
  prover_answer U (witness_of U R this BasicZether accountData cur_b amount 0 Burn)
  = inr proof ->
  generateCalldata U (Zether.proof proof) (publicSignals proof) = inr calldata ->
  run U R this BasicZether publicClient account amount Burn
  = (calls_before_check U this BasicZether publicClient accountData Burn
     ++ [ Prove (witness_of U R this BasicZether accountData cur_b amount 0 Burn) ],
     Some SyntaxError).
Proof.
  intros Ha Hb Hf Hp Hr Hc. unfold run, burn.
  rewrite (stimulateAccount_answers _ _ _ _ Ha). step.
  rewrite Hb, (require_balance_truthy _ Hf). step.
  cbn [witness_of prover_answer] in Hr. rewrite Hr. step.
  rewrite Hc. step. unfold BigInt. rewrite Hp. reflexivity.
Qed.

Lemma run_transfer_malformed U R this BasicZether publicClient account amount
    accountData cur_b receiverPublicKey :
  answers this BasicZether publicClient accountData ->
  readBalanceWithOnchainData U accountData (this_privateKey this) = Some cur_b ->
  falsy (Some cur_b) = false ->
  StringToBigInt amount = None ->
  run U R this BasicZether publicClient account amount (Transfer receiverPublicKey)
  = (calls_before_check U this BasicZether publicClient accountData
       (Transfer receiverPublicKey),
     Some SyntaxError).
Proof.
  intros Ha Hb Hf Hp. unfold run, transfer.
  rewrite (stimulateAccount_answers _ _ _ _ Ha). step.
  rewrite Hb, (require_balance_truthy _ Hf). step.
  unfold BigInt. rewrite Hp. reflexivity.
Qed.

End RunFacts.

(* ================================================================== *)
(** * The model on the values of the test suite *)
(* ================================================================== *)

Module Checks.
Import Js Units Zether Demo.

Example BigInt_literals :
  BigInt "10000" = Ok 10000 /\ BigInt "  -12 " = Ok (-12) /\ BigInt "0x1F" = Ok 31
  /\ BigInt "" = Ok 0 /\ BigInt "1.5" = Throw SyntaxError
  /\ BigInt "1e3" = Throw SyntaxError /\ BigInt "-0x1" = Throw SyntaxError.
Proof. repeat split. Qed.

Example Number_ties_to_even :
  of_Z (2 ^ 53 + 1) = of_Z (2 ^ 53) /\ of_Z (2 ^ 53 + 3) = of_Z (2 ^ 53 + 4)
  /\ Number_toString (fun _ => "") (of_Z (2 ^ 53)) = "9007199254740992"
  /\ of_Z (2 ^ 1024) = S754_infinity false.
Proof. vm_compute. repeat split. Qed.

Example toUnitsByDecimals_strings :
  toUnitsByDecimals_string "1" 4 = Ok 10000
  /\ toUnitsByDecimals_string "12.345" 2 = Ok 1234
  /\ toUnitsByDecimals_string "0.5" 4 = Ok 5000
  /\ toUnitsByDecimals_string "-1.5" 4 = Ok (-15000)
  /\ toUnitsByDecimals_string "1.2.3" 2 = Ok 120
  /\ toUnitsByDecimals_string "0x10" 0 = Throw SyntaxError
  /\ toUnitsByDecimals_string "1" (-1) = Throw RangeError.
Proof. vm_compute. repeat split. Qed.

(** Test 3: with a balance of [2 * 10^4], burning [10^4] submits
    [burn(publicKey, 10000, proof)] from the caller. *)
Example burn_of_the_test_suite :
  exists proofFlat,
    run (demo_ultis MAX32) demo_runtime demo_client (demo_contract MAX32 20000)
      demo_publicClient sender "10000" Burn
    = ((calls_before_check (demo_ultis MAX32) demo_client
          (demo_contract MAX32 20000) demo_publicClient
          ({| x := 20014; y := 0 |}, {| x := 2; y := 0 |}) Burn
        ++ [ Prove (witness_of (demo_ultis MAX32) demo_runtime demo_client
                      (demo_contract MAX32 20000)
                      ({| x := 20014; y := 0 |}, {| x := 2; y := 0 |})
                      (of_Z 20000) "10000" 10000 Burn);
             Write (Some sender) (W_burn (this_publicKey demo_client) 10000 proofFlat) ])%list,
       None).
Proof. eexists. vm_compute. reflexivity. Qed.

(** Test 2: with a balance of [2 * 10^4], transferring [10^4] hands the
    prover the remainder [10^4] and submits the transfer. *)
Example transfer_of_the_test_suite :
  exists i rest,
    run (demo_ultis MAX32) demo_runtime demo_client (demo_contract MAX32 20000)
      demo_publicClient sender "10000" (Transfer receiver_key)
    = ((calls_before_check (demo_ultis MAX32) demo_client
          (demo_contract MAX32 20000) demo_publicClient
          ({| x := 20014; y := 0 |}, {| x := 2; y := 0 |}) (Transfer receiver_key)
        ++ [ Prove (TransferWitness i); Write (Some sender) rest ])%list,
       None)
    /\ sAmount i = "10000" /\ bRem i = "10000" /\ MAX_ i = "4294967295".
Proof. do 2 eexists. vm_compute. repeat split. Qed.

End Checks.

(* ================================================================== *)
(** * Properties of the client *)
(* ================================================================== *)

Import Js Units Zether Demo.
Local Open Scope string_scope.
Local Open Scope Z_scope.

(** ** Epochs *)

(** C4.  With a block height that is not negative and a positive epoch
    length, [stimulateAccount] reads the epoch length and the block height and
    then asks [simulateAccounts] for this account at the epoch
    [floor (blockNumber / epochLength)]. *)
Theorem stimulateAccount_epoch_is_floor
    (this : Client) (BasicZether : MyZSCContract) (publicClient : PublicClient) :
  0 <= getBlockNumber publicClient ->
  0 < read_epochLength BasicZether ->
  fst (stimulateAccount this BasicZether publicClient)
  = [ Read R_epochLength; Read R_getBlockNumber;
      Read (R_simulateAccounts [this_publicKey this]
              (getBlockNumber publicClient / read_epochLength BasicZether)) ].
Proof.
  intros Hbn Hel. unfold stimulateAccount. ClientFacts.step. unfold bigint_div.
  replace (read_epochLength BasicZether =? 0) with false
    by (symmetry; apply Z.eqb_neq; lia).
  ClientFacts.step. rewrite (Z.quot_div_nonneg _ _ Hbn Hel).
  destruct (read_simulateAccounts BasicZether _ _); reflexivity.
Qed.

Lemma stimulateAccount_epoch_is_floor_witness :
  0 <= getBlockNumber demo_publicClient /\
  0 < read_epochLength (demo_contract MAX32 20000) /\
  fst (stimulateAccount demo_client (demo_contract MAX32 20000) demo_publicClient)
  = [ Read R_epochLength; Read R_getBlockNumber;
      Read (R_simulateAccounts [this_publicKey demo_client]
              (getBlockNumber demo_publicClient
               / read_epochLength (demo_contract MAX32 20000))) ].
Proof.
  split; [simpl; lia | split; [simpl; lia | ]].
  apply (stimulateAccount_epoch_is_floor demo_client (demo_contract MAX32 20000)
           demo_publicClient); simpl; lia.
Defined.

(** ** Balances that cannot be spent *)

(** C3.  When the decode of the account's entry finds no balance, [burn]
    and [transfer] end in the error "Current balance is undefined" after
    their reads; the decode ran once, no witness reached the prover and
    nothing was submitted. *)
Theorem undecodable_balance_is_fatal
    (U : Ultis) (R : Runtime) (this : Client) (BasicZether : MyZSCContract)
    (publicClient : PublicClient) (account : Account) (amount : string)
    (accountData : AccountData) (o : operation) :
  answers this BasicZether publicClient accountData ->
  readBalanceWithOnchainData U accountData (this_privateKey this) = None ->
  let result := run U R this BasicZether publicClient account amount o in
  result = (calls_before_check U this BasicZether publicClient accountData o,
            Some (Error "Current balance is undefined"))
  /\ filter is_decode (fst result) = [Decode accountData]
  /\ filter is_prove (fst result) = []
  /\ writes (fst result) = [].
Proof.
  intros Ha Hb result. subst result.
  rewrite (ClientFacts.run_no_balance U R this BasicZether publicClient account
             amount accountData o Ha) by (rewrite Hb; reflexivity).
  destruct o; repeat split.
Qed.

Lemma undecodable_balance_is_fatal_witness :
  answers demo_client (demo_contract MAX32 (-1)) demo_publicClient
    ({| x := 13; y := 0 |}, {| x := 2; y := 0 |})
  /\ readBalanceWithOnchainData (demo_ultis MAX32)
       ({| x := 13; y := 0 |}, {| x := 2; y := 0 |}) (this_privateKey demo_client)
     = None
  /\ run (demo_ultis MAX32) demo_runtime demo_client (demo_contract MAX32 (-1))
       demo_publicClient sender "1" (Transfer receiver_key)
     = (calls_before_check (demo_ultis MAX32) demo_client (demo_contract MAX32 (-1))
          demo_publicClient ({| x := 13; y := 0 |}, {| x := 2; y := 0 |})
          (Transfer receiver_key),
        Some (Error "Current balance is undefined")).
Proof.
  assert (Ha : answers demo_client (demo_contract MAX32 (-1)) demo_publicClient
                 ({| x := 13; y := 0 |}, {| x := 2; y := 0 |})).
  { split; [discriminate | exists []; reflexivity]. }
  split; [exact Ha | split; [reflexivity | ]].
  exact (proj1 (undecodable_balance_is_fatal (demo_ultis MAX32) demo_runtime
                  demo_client (demo_contract MAX32 (-1)) demo_publicClient sender
                  "1" _ (Transfer receiver_key) Ha eq_refl)).
Defined.

(** C8.  When the decoded balance is zero, [burn] and [transfer] end in the
    same error "Current balance is undefined": the decode succeeded, yet no
    witness reached the prover and nothing was submitted, whatever the
    amount. *)
Theorem zero_balance_is_rejected
    (U : Ultis) (R : Runtime) (this : Client) (BasicZether : MyZSCContract)
    (publicClient : PublicClient) (account : Account) (amount : string)
    (accountData : AccountData) (o : operation) (s : bool) :
  answers this BasicZether publicClient accountData ->
  readBalanceWithOnchainData U accountData (this_privateKey this)
  = Some (S754_zero s) ->
  let result := run U R this BasicZether publicClient account amount o in
  result = (calls_before_check U this BasicZether publicClient accountData o,
            Some (Error "Current balance is undefined"))
  /\ filter is_prove (fst result) = []
  /\ writes (fst result) = [].
Proof.
  intros Ha Hb result. subst result.
  rewrite (ClientFacts.run_no_balance U R this BasicZether publicClient account
             amount accountData o Ha) by (rewrite Hb; reflexivity).
  destruct o; repeat split.
Qed.

Lemma zero_balance_is_rejected_witness :
  answers demo_client (demo_contract MAX32 0) demo_publicClient
    ({| x := 14; y := 0 |}, {| x := 2; y := 0 |})
  /\ readBalanceWithOnchainData (demo_ultis MAX32)
       ({| x := 14; y := 0 |}, {| x := 2; y := 0 |}) (this_privateKey demo_client)
     = Some (S754_zero false)
  /\ run (demo_ultis MAX32) demo_runtime demo_client (demo_contract MAX32 0)
       demo_publicClient sender "0" Burn
     = (calls_before_check (demo_ultis MAX32) demo_client (demo_contract MAX32 0)
          demo_publicClient ({| x := 14; y := 0 |}, {| x := 2; y := 0 |}) Burn,
        Some (Error "Current balance is undefined")).
Proof.
  assert (Ha : answers demo_client (demo_contract MAX32 0) demo_publicClient
                 ({| x := 14; y := 0 |}, {| x := 2; y := 0 |})).
  { split; [discriminate | exists []; reflexivity]. }
  split; [exact Ha | split; [reflexivity | ]].
  exact (proj1 (zero_balance_is_rejected (demo_ultis MAX32) demo_runtime
                  demo_client (demo_contract MAX32 0) demo_publicClient sender
                  "0" _ Burn false Ha eq_refl)).
Defined.

(** C10.  When the decode finds no balance, [getCurrentBalance] returns
    [undefined] to its caller after its reads: it does not throw. *)
Theorem getCurrentBalance_returns_undefined
    (U : Ultis) (this : Client) (BasicZether : MyZSCContract)
    (publicClient : PublicClient) (accountData : AccountData) :
  answers this BasicZether publicClient accountData ->
  readBalanceWithOnchainData U accountData (this_privateKey this) = None ->
  getCurrentBalance U this BasicZether publicClient
  = ([ Read R_epochLength; Read R_getBlockNumber;
       Read (R_simulateAccounts [this_publicKey this]
               (Z.quot (getBlockNumber publicClient)
                       (read_epochLength BasicZether)));
       Decode accountData ],
     Ok None).
Proof.
  intros Ha Hb. unfold getCurrentBalance.
  rewrite (ClientFacts.stimulateAccount_answers _ _ _ _ Ha).
  ClientFacts.step. rewrite Hb. reflexivity.
Qed.

Lemma getCurrentBalance_returns_undefined_witness :
  answers demo_client (demo_contract MAX32 (-1)) demo_publicClient
    ({| x := 13; y := 0 |}, {| x := 2; y := 0 |})
  /\ readBalanceWithOnchainData (demo_ultis MAX32)
       ({| x := 13; y := 0 |}, {| x := 2; y := 0 |}) (this_privateKey demo_client)
     = None
  /\ snd (getCurrentBalance (demo_ultis MAX32) demo_client
            (demo_contract MAX32 (-1)) demo_publicClient)
     = Ok None.
Proof.
  assert (Ha : answers demo_client (demo_contract MAX32 (-1)) demo_publicClient
                 ({| x := 13; y := 0 |}, {| x := 2; y := 0 |})).
  { split; [discriminate | exists []; reflexivity]. }
  split; [exact Ha | split; [reflexivity | ]].
  rewrite (getCurrentBalance_returns_undefined (demo_ultis MAX32) demo_client
             (demo_contract MAX32 (-1)) demo_publicClient _ Ha eq_refl).
  reflexivity.
Defined.

(** ** Errors and the write *)

(** C5.  Whenever [burn] or [transfer] ends in an error of the client's side
    (any error but a revert of the ledger), no write was submitted: the
    [write.burn] / [write.transfer] call is the last step and every local
    failure comes before it. *)
Theorem local_errors_precede_the_write
    (U : Ultis) (R : Runtime) (this : Client) (BasicZether : MyZSCContract)
    (publicClient : PublicClient) (account : Account) (amount : string)
    (o : operation) (e : error) :
  snd (run U R this BasicZether publicClient account amount o) = Some e ->
  local_error e = true ->
  writes (fst (run U R this BasicZether publicClient account amount o)) = [].
Proof.
  destruct o as [ | receiver]; unfold run, observe; cbn [fst snd]; intros He Hl.
  - apply (ClientFacts.fails_before_write_burn U R this BasicZether publicClient
             account amount e); [ | exact Hl].
    destruct (snd (burn _ _ _ _ _ _ _)); congruence.
  - apply (ClientFacts.fails_before_write_transfer U R this BasicZether
             publicClient account amount receiver e); [ | exact Hl].
    destruct (snd (transfer _ _ _ _ _ _ _ _)); congruence.
Qed.

Lemma local_errors_precede_the_write_witness :
  snd (run (demo_ultis MAX32) demo_runtime demo_client (demo_contract MAX32 20000)
         demo_publicClient sender "12.5" (Transfer receiver_key))
  = Some SyntaxError
  /\ local_error SyntaxError = true
  /\ writes (fst (run (demo_ultis MAX32) demo_runtime demo_client
                    (demo_contract MAX32 20000) demo_publicClient sender "12.5"
                    (Transfer receiver_key)))
     = [].
Proof.
  split; [vm_compute; reflexivity | split; [reflexivity | ]].
  apply (local_errors_precede_the_write (demo_ultis MAX32) demo_runtime demo_client
           (demo_contract MAX32 20000) demo_publicClient sender "12.5"
           (Transfer receiver_key) SyntaxError);
    vm_compute; reflexivity.
Defined.

(** ** Locking *)

(** C6.  [lock] submits one write, [lock(publicKey, lockAddress, c, s)],
    whose pair [(c, s)] is [schnorrChallenge] of the contract address, the
    lock address (both in the form [getAddress] returns), the account's
    public key and its private key. *)
Theorem lock_submits_schnorr_pair
    (U : Ultis) (R : Runtime) (this : Client) (BasicZether : MyZSCContract)
    (account : Account) (lockAddress : string)
    (lockAddress' _contractAddress _lockAddress : string) :
  getAddress R lockAddress = Ok lockAddress' ->
  getAddress R (address BasicZether) = Ok _contractAddress ->
  getAddress R lockAddress' = Ok _lockAddress ->
  let cs := schnorrChallenge U _contractAddress _lockAddress
              (this_publicKey this) (this_privateKey this) in
  fst (lock U R this BasicZether account lockAddress)
  = [ Write (Some account)
        (W_lock (this_publicKey this) lockAddress' (fst cs) (snd cs)) ].
Proof.
  intros H1 H2 H3 cs. subst cs. unfold lock.
  rewrite H1. ClientFacts.step. rewrite H2. ClientFacts.step.
  rewrite H3. ClientFacts.step.
  destruct (schnorrChallenge U _ _ _ _) as [c s]. ClientFacts.step.
  destruct (write BasicZether _ _); reflexivity.
Qed.

Lemma lock_submits_schnorr_pair_witness :
  getAddress demo_runtime sender = Ok sender
  /\ getAddress demo_runtime (address (demo_contract MAX32 20000))
     = Ok (address (demo_contract MAX32 20000))
  /\ fst (lock (demo_ultis MAX32) demo_runtime demo_client
            (demo_contract MAX32 20000) sender sender)
     = [ Write (Some sender)
           (W_lock (this_publicKey demo_client) sender 96 (-667)) ].
Proof.
  split; [reflexivity | split; [reflexivity | ]].
  exact (lock_submits_schnorr_pair (demo_ultis MAX32) demo_runtime demo_client
           (demo_contract MAX32 20000) sender sender sender
           (address (demo_contract MAX32 20000)) sender
           eq_refl eq_refl eq_refl).
Defined.

(** ** Amounts out of range *)

(** C1, as the code has it.  The client compares the amount with nothing.
    For every amount that is an integer literal, negative, above [MAX] or
    above the balance as it may be, both operations first make their ledger
    reads and decode the balance, then put the amount unchanged into the
    witness handed to the prover, and the run ends as the prover, the
    calldata generation and the ledger decide and in no other way: in the
    prover's rejection with nothing submitted, or in one write whose revert
    or success is the outcome. *)
Theorem amount_is_checked_by_the_prover_only
    (U : Ultis) (R : Runtime) (this : Client) (BasicZether : MyZSCContract)
    (publicClient : PublicClient) (account : Account) (amount : string)
    (accountData : AccountData) (cur_b : number) (amount' : Z) (o : operation) :
  answers this BasicZether publicClient accountData ->
  readBalanceWithOnchainData U accountData (this_privateKey this) = Some cur_b ->
  falsy (Some cur_b) = false ->
  BigInt amount = Ok amount' ->
  let w := witness_of U R this BasicZether accountData cur_b amount amount' o in
  let before := calls_before_check U this BasicZether publicClient accountData o in
  witness_amount w = amount
  /\ run U R this BasicZether publicClient account amount o
     = match prover_answer U w with
       | inl reason => ((before ++ [Prove w])%list, Some (Rejected reason))
       | inr proof =>
           match generateCalldata U (Zether.proof proof) (publicSignals proof) with
           | inl reason => ((before ++ [Prove w])%list, Some (Rejected reason))
           | inr calldata =>
               let c := Submission.write_of U this o amount'
                          (flattenProof U (pA calldata) (pB calldata) (pC calldata)) in
               ((before ++ [Prove w; Write (Some account) c])%list,
                match write BasicZether (Some account) c with
                | inl reason => Some (Reverted reason)
                | inr _ => None
                end)
           end
       end.
Proof.
  intros Ha Hb Hf Hp w before. subst w before. split.
  - destruct o as [ | receiver]; cbn [witness_of]; [reflexivity | ].
    destruct (createTransferInput U _ _ _ _) as [[C_send C_receive] D'].
    reflexivity.
  - destruct o as [ | receiver]; unfold run, burn, transfer;
      rewrite (ClientFacts.stimulateAccount_answers _ _ _ _ Ha); ClientFacts.step;
      rewrite Hb, (ClientFacts.require_balance_truthy _ Hf); ClientFacts.step.
    + cbn [witness_of prover_answer Submission.write_of].
      destruct (generateBurnProof U _) as [reason | proof]; ClientFacts.step;
        [reflexivity | ].
      destruct (generateCalldata U _ _) as [reason | calldata]; ClientFacts.step;
        [reflexivity | ].
      rewrite Hp. ClientFacts.step.
      destruct (write BasicZether _ _); reflexivity.
    + rewrite Hp. ClientFacts.step. cbn [witness_of Submission.write_of].
      destruct (createTransferInput U _ _ _ _) as [[C_send C_receive] D'].
      cbn [prover_answer]. ClientFacts.step.
      destruct (generateTransferProof U _) as [reason | proof]; ClientFacts.step;
        [reflexivity | ].
      destruct (generateCalldata U _ _) as [reason | calldata]; ClientFacts.step;
        [reflexivity | ].
      destruct (write BasicZether _ _); reflexivity.
Qed.

Lemma amount_is_checked_by_the_prover_only_witness :
  answers demo_client (demo_contract MAX32 20000) demo_publicClient
    ({| x := 20014; y := 0 |}, {| x := 2; y := 0 |})
  /\ BigInt "-1" = Ok (-1)
  /\ snd (run (demo_ultis MAX32) demo_runtime demo_client
            (demo_contract MAX32 20000) demo_publicClient sender "-1" Burn)
     = Some (Rejected "WitnessInvalid")
  /\ run (Scenarios.lenient_ultis MAX32) demo_runtime demo_client
       (demo_contract MAX32 20000) demo_publicClient sender "-1" Burn
     = ((calls_before_check (Scenarios.lenient_ultis MAX32) demo_client
           (demo_contract MAX32 20000) demo_publicClient
           ({| x := 20014; y := 0 |}, {| x := 2; y := 0 |}) Burn
         ++ [ Prove (witness_of (Scenarios.lenient_ultis MAX32) demo_runtime
                       demo_client (demo_contract MAX32 20000)
                       ({| x := 20014; y := 0 |}, {| x := 2; y := 0 |})
                       (of_Z 20000) "-1" (-1) Burn);
              Write (Some sender)
                (W_burn (this_publicKey demo_client) (-1) [1; 1; 1]) ])%list,
        None).
Proof.
  assert (Ha : answers demo_client (demo_contract MAX32 20000) demo_publicClient
                 ({| x := 20014; y := 0 |}, {| x := 2; y := 0 |})).
  { split; [discriminate | exists []; reflexivity]. }
  split; [exact Ha | split; [reflexivity | split]].
  - rewrite (proj2 (amount_is_checked_by_the_prover_only (demo_ultis MAX32)
                      demo_runtime demo_client (demo_contract MAX32 20000)
                      demo_publicClient sender "-1" _ (of_Z 20000) (-1) Burn
                      Ha eq_refl eq_refl eq_refl)).
    reflexivity.
  - exact (proj2 (amount_is_checked_by_the_prover_only (Scenarios.lenient_ultis MAX32)
                    demo_runtime demo_client (demo_contract MAX32 20000)
                    demo_publicClient sender "-1" _ (of_Z 20000) (-1) Burn
                    Ha eq_refl eq_refl eq_refl)).
Defined.

(** C1, as the specification has it, fails.  On a ledger where the account
    holds 20000 and [MAX] is [2^32 - 1], a burn of [-1], a transfer of 30000
    (above the balance) and a transfer of [2^32] (above [MAX]) each make all
    their network reads first and fail only when the prover rejects the
    witness. *)
Lemma out_of_range_amount_reaches_the_network :
  let go := run (demo_ultis MAX32) demo_runtime demo_client
              (demo_contract MAX32 20000) demo_publicClient sender in
  (BigInt "-1" = Ok (-1)
   /\ filter is_read (fst (go "-1" Burn))
      = [ Read R_epochLength; Read R_getBlockNumber;
          Read (R_simulateAccounts [{| x := 7; y := 0 |}] 2);
          Read (R_counter "0x7") ]
   /\ snd (go "-1" Burn) = Some (Rejected "WitnessInvalid"))
  /\ (BigInt "30000" = Ok 30000
      /\ filter is_read (fst (go "30000" (Transfer receiver_key)))
         = [ Read R_epochLength; Read R_getBlockNumber;
             Read (R_simulateAccounts [{| x := 7; y := 0 |}] 2);
             Read (R_counter "0x7"); Read R_MAX ]
      /\ snd (go "30000" (Transfer receiver_key)) = Some (Rejected "WitnessInvalid"))
  /\ (BigInt "4294967296" = Ok (MAX32 + 1)
      /\ filter is_read (fst (go "4294967296" (Transfer receiver_key)))
         = [ Read R_epochLength; Read R_getBlockNumber;
             Read (R_simulateAccounts [{| x := 7; y := 0 |}] 2);
             Read (R_counter "0x7"); Read R_MAX ]
      /\ snd (go "4294967296" (Transfer receiver_key))
         = Some (Rejected "WitnessInvalid")).
Proof. vm_compute. repeat split. Qed.

(** ** The remaining balance *)

(** C2, as the code has it.  [transfer] computes the remainder as the
    subtraction of doubles [cur_b - Number(amount)].  For a balance [b] and an
    amount [a] with [0 <= a <= b <= 2^53] (any [MAX] up to [2^53], so
    [2^32 - 1] too) the subtraction is exact.  With [b] above zero the witness
    handed to the prover carries the decimal digits of [b - a]; with [b] zero
    [transfer] stops in "Current balance is undefined" before it computes a
    remainder. *)
Theorem remaining_balance_exact_up_to_2_53
    (U : Ultis) (R : Runtime) (this : Client) (BasicZether : MyZSCContract)
    (publicClient : PublicClient) (account : Account) (amount : string)
    (receiverPublicKey : SolidityPointInput) (accountData : AccountData)
    (a b : Z) :
  answers this BasicZether publicClient accountData ->
  readBalanceWithOnchainData U accountData (this_privateKey this) = Some (of_Z b) ->
  BigInt amount = Ok a ->
  0 <= a <= b -> b <= 2 ^ 53 ->
  let result := run U R this BasicZether publicClient account amount
                  (Transfer receiverPublicKey) in
  let before := calls_before_check U this BasicZether publicClient accountData
                  (Transfer receiverPublicKey) in
  remainAmount R (of_Z b) amount = of_Z (b - a)
  /\ to_Z (of_Z (b - a)) = Some (b - a)
  /\ (0 < b ->
      exists i rest,
        fst result = (before ++ Prove (TransferWitness i) :: rest)%list
        /\ bRem i = Z_to_string (b - a))
  /\ (b = 0 -> result = (before, Some (Error "Current balance is undefined"))).
Proof.
  intros Ha Hb Hp Hab Hb53 result before. subst result before.
  assert (Hrem : remainAmount R (of_Z b) amount = of_Z (b - a)).
  { unfold remainAmount, Number. unfold BigInt in Hp.
    destruct (StringToBigInt amount) as [z | ]; [ | discriminate Hp].
    injection Hp as ->. apply FloatFacts.sub_exact; lia. }
  split; [exact Hrem | split; [apply FloatFacts.to_Z_of_Z; lia | split]].
  - intro Hpos.
    assert (Hf : falsy (Some (of_Z b)) = false).
    { destruct b as [ | vb | vb]; try lia.
      destruct (FloatFacts.canon_exists vb ltac:(lia)) as [wb Hwb].
      rewrite (FloatFacts.of_Z_canon vb wb ltac:(lia) Hwb). reflexivity. }
    destruct (ClientFacts.run_proves U R this BasicZether publicClient account
                amount accountData (of_Z b) a (Transfer receiverPublicKey)
                Ha Hb Hf Hp)
      as [rest Hrun].
    cbn [witness_of] in Hrun.
    destruct (createTransferInput U _ _ _ _) as [[C_send C_receive] D'].
    eexists. exists rest. split; [exact Hrun | ].
    cbn [bRem]. rewrite Hrem. apply FloatFacts.Number_toString_of_Z. lia.
  - intro Hzero. subst b.
    apply (ClientFacts.run_no_balance U R this BasicZether publicClient account
             amount accountData (Transfer receiverPublicKey) Ha).
    rewrite Hb. reflexivity.
Qed.

Lemma remaining_balance_exact_up_to_2_53_witness :
  answers demo_client (demo_contract MAX32 20000) demo_publicClient
    ({| x := 20014; y := 0 |}, {| x := 2; y := 0 |})
  /\ BigInt "12345" = Ok 12345
  /\ (0 <= 12345 <= 20000 /\ 20000 <= 2 ^ 53)
  /\ remainAmount demo_runtime (of_Z 20000) "12345" = of_Z (20000 - 12345)
  /\ (exists i rest,
        fst (run (demo_ultis MAX32) demo_runtime demo_client
               (demo_contract MAX32 20000) demo_publicClient sender "12345"
               (Transfer receiver_key))
        = (calls_before_check (demo_ultis MAX32) demo_client
             (demo_contract MAX32 20000) demo_publicClient
             ({| x := 20014; y := 0 |}, {| x := 2; y := 0 |}) (Transfer receiver_key)
           ++ Prove (TransferWitness i) :: rest)%list
        /\ bRem i = Z_to_string (20000 - 12345)).
Proof.
  assert (Ha : answers demo_client (demo_contract MAX32 20000) demo_publicClient
                 ({| x := 20014; y := 0 |}, {| x := 2; y := 0 |})).
  { split; [discriminate | exists []; reflexivity]. }
  split; [exact Ha | split; [reflexivity | split; [lia | ]]].
  destruct (remaining_balance_exact_up_to_2_53 (demo_ultis MAX32) demo_runtime
              demo_client (demo_contract MAX32 20000) demo_publicClient sender
              "12345" receiver_key _ 12345 20000 Ha eq_refl eq_refl
              ltac:(lia) ltac:(lia))
    as (H1 & _ & H3 & _).
  split; [exact H1 | apply H3; lia].
Defined.

(** C2, as the specification has it, fails.  With [MAX = 2^64], a balance of
    [2^54] and the amount [2^53 + 1], all in range, [Number(amount)] is
    already rounded to [2^53] and the witness carries [2^53] as the remainder,
    where the exact difference is [2^53 - 1]. *)
Lemma remaining_balance_is_rounded_above_2_53 :
  let amount := "9007199254740993" in
  let go := run (demo_ultis (2 ^ 64)) demo_runtime demo_client
              (demo_contract (2 ^ 64) (2 ^ 54)) demo_publicClient sender amount
              (Transfer receiver_key) in
  BigInt amount = Ok (2 ^ 53 + 1)
  /\ readBalanceWithOnchainData (demo_ultis (2 ^ 64))
       ({| x := 2 ^ 54 + 14; y := 0 |}, {| x := 2; y := 0 |})
       (this_privateKey demo_client)
     = Some (of_Z (2 ^ 54))
  /\ (0 <= 2 ^ 53 + 1 <= 2 ^ 54
      /\ 2 ^ 54 <= read_MAX (demo_contract (2 ^ 64) (2 ^ 54)))
  /\ remainAmount demo_runtime (of_Z (2 ^ 54)) amount = of_Z (2 ^ 53)
  /\ of_Z (2 ^ 53) <> of_Z (2 ^ 54 - (2 ^ 53 + 1))
  /\ (exists i, In (Prove (TransferWitness i)) (fst go)
                /\ bRem i = "9007199254740992")
  /\ Z_to_string (2 ^ 54 - (2 ^ 53 + 1)) = "9007199254740991".
Proof.
  cbv zeta. split; [vm_compute; reflexivity | ].
  split; [vm_compute; reflexivity | ].
  split; [vm_compute; intuition discriminate | ].
  split; [vm_compute; reflexivity | ].
  split; [vm_compute; discriminate | ].
  split; [ | vm_compute; reflexivity].
  eexists. split.
  - vm_compute. do 6 right. left. reflexivity.
  - reflexivity.
Qed.

(** ** [toUnitsByDecimals] *)

(** C9.  A bigint comes back unchanged, whatever [decimals] is, negative
    ones included.  With [decimals] not negative, a string of digits with a
    fraction gives its integer digits followed by the fraction cut or
    zero-filled to exactly [decimals] digits (cut, not rounded), and a string
    of digits alone gives its value times [10 ^ decimals]. *)
Theorem toUnitsByDecimals_bigint_unscaled_string_scaled
    (other : number -> string) (decimals : Z) (intPart frac : string) (a : Z) :
  toUnitsByDecimals other (ABigint a) decimals = Ok a
  /\ (is_digits intPart = true -> is_digits frac = true -> 0 <= decimals ->
      toUnitsByDecimals other (AString (intPart ++ String "." frac)) decimals
      = Ok (decimal_value (intPart ++ fit (Z.to_nat decimals) frac))
      /\ Z.of_nat (String.length (fit (Z.to_nat decimals) frac)) = decimals
      /\ decimal_value (intPart ++ fit (Z.to_nat decimals) frac)
         = decimal_value intPart * 10 ^ decimals
           + decimal_value (fit (Z.to_nat decimals) frac)
      /\ toUnitsByDecimals other (AString intPart) decimals
         = Ok (decimal_value intPart * 10 ^ decimals)).
Proof.
  split; [reflexivity | ]. intros Hi Hf Hd. cbn [toUnitsByDecimals].
  split; [apply StringFacts.toUnitsByDecimals_string_fraction; assumption | ].
  split; [rewrite StringFacts.length_fit; lia | ].
  split; [ | apply StringFacts.toUnitsByDecimals_string_integer; assumption].
  rewrite StringFacts.decimal_value_app, StringFacts.length_fit, Z2Nat.id by lia.
  reflexivity.
Qed.

Lemma toUnitsByDecimals_bigint_unscaled_string_scaled_witness :
  (is_digits "12" = true /\ is_digits "349" = true /\ 0 <= 2)
  /\ toUnitsByDecimals (fun _ => "") (ABigint 12) 2 = Ok 12
  /\ toUnitsByDecimals (fun _ => "") (ABigint 12) (-3) = Ok 12
  /\ toUnitsByDecimals (fun _ => "") (AString "12.349") 2
     = Ok (decimal_value ("12" ++ fit (Z.to_nat 2) "349"))
  /\ decimal_value ("12" ++ fit (Z.to_nat 2) "349") = 1234
  /\ toUnitsByDecimals (fun _ => "") (AString "12") 2 = Ok (decimal_value "12" * 10 ^ 2).
Proof.
  split; [repeat split; lia | ].
  destruct (toUnitsByDecimals_bigint_unscaled_string_scaled (fun _ => "") 2
              "12" "349" 12)
    as (H1 & H).
  destruct (H eq_refl eq_refl ltac:(lia)) as (H2 & _ & _ & H5).
  split; [exact H1 | ].
  split; [exact (proj1 (toUnitsByDecimals_bigint_unscaled_string_scaled
                          (fun _ => "") (-3) "" "" 12)) | ].
  split; [exact H2 | split; [reflexivity | exact H5]].
Defined.

(** C7, as the code has it.  [toUnitsByDecimals] brings to one integer: a
    bigint (returned as it is, for every [decimals]); a number that is an
    integer of magnitude at most [2^53] (scaled by [10 ^ decimals]); a string
    of digits with an optional fraction.  It compares the result with
    nothing: a bigint of any sign and size comes back unchanged.  Not every
    number is brought to an integer: [NaN] and the infinities make it throw
    [SyntaxError]. *)
Theorem toUnitsByDecimals_collapses_without_bound_check
    (other : number -> string) (decimals : Z) :
  (forall z : Z, toUnitsByDecimals other (ABigint z) decimals = Ok z)
  /\ (0 <= decimals ->
      (forall n : Z,
         Z.abs n <= 2 ^ 53 ->
         toUnitsByDecimals other (ANumber (of_Z n)) decimals
         = Ok (n * 10 ^ decimals))
      /\ (forall s : bool,
            toUnitsByDecimals other (ANumber S754_nan) decimals = Throw SyntaxError
            /\ toUnitsByDecimals other (ANumber (S754_infinity s)) decimals
               = Throw SyntaxError)
      /\ (forall intPart frac : string,
            is_digits intPart = true -> is_digits frac = true ->
            exists z, 0 <= z
              /\ toUnitsByDecimals other (AString (intPart ++ String "." frac))
                   decimals
                 = Ok z)
      /\ (forall a : string,
            is_digits a = true ->
            exists z, 0 <= z /\ toUnitsByDecimals other (AString a) decimals = Ok z)).
Proof.
  split; [reflexivity | ]. intros Hd.
  split; [intros n Hn; apply NumberFacts.toUnitsByDecimals_integer_number;
          assumption | ].
  split; [intro s; apply NumberFacts.toUnitsByDecimals_not_a_finite_number;
          assumption | ].
  split.
  - intros intPart frac Hi Hf. eexists. split.
    2: apply StringFacts.toUnitsByDecimals_string_fraction; assumption.
    apply StringFacts.decimal_acc_nonneg; [ | lia].
    rewrite StringFacts.is_digits_app, Hi, StringFacts.is_digits_fit by exact Hf.
    reflexivity.
  - intros a Ha. eexists. split.
    2: apply StringFacts.toUnitsByDecimals_string_integer; assumption.
    apply Z.mul_nonneg_nonneg; [ | apply Z.pow_nonneg; lia].
    apply StringFacts.decimal_acc_nonneg; [exact Ha | lia].
Qed.

Lemma toUnitsByDecimals_collapses_without_bound_check_witness :
  0 <= 4
  /\ toUnitsByDecimals (fun _ => "") (ABigint (MAX32 + 1)) 4 = Ok (MAX32 + 1)
  /\ toUnitsByDecimals (fun _ => "") (ABigint (-5)) (-1) = Ok (-5)
  /\ toUnitsByDecimals (fun _ => "") (ANumber (of_Z 15)) 4 = Ok (15 * 10 ^ 4)
  /\ toUnitsByDecimals (fun _ => "") (ANumber S754_nan) 4 = Throw SyntaxError.
Proof.
  split; [lia | ].
  destruct (toUnitsByDecimals_collapses_without_bound_check (fun _ => "") 4)
    as (H1 & H).
  destruct (H ltac:(lia)) as (H2 & H3 & _).
  split; [apply H1 | ].
  split; [exact (proj1 (toUnitsByDecimals_collapses_without_bound_check
                          (fun _ => "") (-1)) (-5)) | ].
  split; [apply H2; simpl; lia | exact (proj1 (H3 false))].
Defined.

(** C7, as the specification has it, fails.  No bound is checked: the bigint
    [-5], the string "-1" and the string "4294967296" (one more than
    [MAX = 2^32 - 1]) are all accepted. *)
Lemma toUnitsByDecimals_accepts_out_of_range :
  toUnitsByDecimals (numberToStringOther demo_runtime) (ABigint (-5)) 4 = Ok (-5)
  /\ toUnitsByDecimals (numberToStringOther demo_runtime) (AString "-1") 0
     = Ok (-1)
  /\ toUnitsByDecimals (numberToStringOther demo_runtime) (AString "4294967296") 0
     = Ok (MAX32 + 1)
  /\ toUnitsByDecimals (numberToStringOther demo_runtime) (ANumber (of_Z (-3))) 2
     = Ok (-300).
Proof. vm_compute. repeat split. Qed.

(* ================================================================== *)
(** * Further properties of the client *)
(* ================================================================== *)

Import Js Units Zether Demo Submission TestSuite Scenarios.
Local Open Scope string_scope.
Local Open Scope Z_scope.

(** ** Reads and writes of an operation *)

(** X1.  On a ledger whose epoch length is zero the division throws:
    [burn], [transfer] and [getCurrentBalance] end in [RangeError] after the
    two reads of [stimulateAccount], before [simulateAccounts] is asked and
    before any decode. *)
Theorem zero_epoch_length_stops_before_simulation
    (U : Ultis) (R : Runtime) (this : Client) (BasicZether : MyZSCContract)
    (publicClient : PublicClient) (account : Account) (amount : string)
    (o : operation) :
  read_epochLength BasicZether = 0 ->
  run U R this BasicZether publicClient account amount o
  = ([Read R_epochLength; Read R_getBlockNumber], Some RangeError)
  /\ getCurrentBalance U this BasicZether publicClient
     = ([Read R_epochLength; Read R_getBlockNumber], Throw RangeError).
Proof.
  intro H. split.
  - destruct o; unfold run, burn, transfer;
      rewrite (RunFacts.stimulateAccount_zero_epochLength _ _ _ H); reflexivity.
  - unfold getCurrentBalance.
    rewrite (RunFacts.stimulateAccount_zero_epochLength _ _ _ H). reflexivity.
Qed.

Lemma zero_epoch_length_stops_before_simulation_witness :
  read_epochLength stalled_contract = 0
  /\ run (demo_ultis MAX32) demo_runtime demo_client stalled_contract
       demo_publicClient sender "1" Burn
     = ([Read R_epochLength; Read R_getBlockNumber], Some RangeError).
Proof.
  split; [reflexivity | ].
  exact (proj1 (zero_epoch_length_stops_before_simulation (demo_ultis MAX32)
                  demo_runtime demo_client stalled_contract demo_publicClient
                  sender "1" Burn eq_refl)).
Defined.

(** X2.  [burn] and [transfer] submit at most one write.  When they submit
    one it is their last call, it is sent from the caller's account, and the
    operation ends as the ledger answers it: with the revert reason of the
    ledger, unchanged, or without error. *)
Theorem at_most_one_write_and_it_is_last
    (U : Ultis) (R : Runtime) (this : Client) (BasicZether : MyZSCContract)
    (publicClient : PublicClient) (account : Account) (amount : string)
    (o : operation) :
  let result := run U R this BasicZether publicClient account amount o in
  writes (fst result) = [] \/
  exists t c,
    fst result = (t ++ [Write (Some account) c])%list
    /\ writes t = []
    /\ snd result = match write BasicZether (Some account) c with
                    | inl reason => Some (Reverted reason)
                    | inr _ => None
                    end.
Proof.
  cbv zeta.
  assert (H : forall A (m : M A),
             submits_at_end BasicZether (Some account) m ->
             writes (fst (observe m)) = [] \/
             exists t c,
               fst (observe m) = (t ++ [Write (Some account) c])%list
               /\ writes t = []
               /\ snd (observe m)
                  = match write BasicZether (Some account) c with
                    | inl reason => Some (Reverted reason)
                    | inr _ => None
                    end).
  { intros A m [Hq | (t & c & Ht & Hw & Hr)]; [left; exact Hq | right].
    exists t, c. unfold observe. cbn [fst snd]. repeat split; try assumption.
    destruct (write BasicZether (Some account) c).
    - rewrite Hr. reflexivity.
    - destruct Hr as [a ->]. reflexivity. }
  destruct o as [ | receiver]; unfold run; apply H.
  - apply RunFacts.submits_at_end_burn.
  - apply RunFacts.submits_at_end_transfer.
Qed.

(** X3.  When the ledger answers, the balance is not falsy, the amount is an
    integer literal, the prover accepts the witness and the calldata is
    generated, the operation makes exactly these calls: its reads, the decode,
    the prover, and one write from the caller.  [burn] submits the public key,
    [BigInt(amount)] and the flattened proof; [transfer] submits both keys, the
    three points of [createTransferInput] for [BigInt(amount)] and the drawn
    scalar, and the flattened proof.  A revert of that write is the error of
    the operation. *)
Theorem accepted_operation_submits_one_write
    (U : Ultis) (R : Runtime) (this : Client) (BasicZether : MyZSCContract)
    (publicClient : PublicClient) (account : Account) (amount : string)
    (accountData : AccountData) (cur_b : number) (amount' : Z) (o : operation)
    (proof : ProofResult) (calldata : Calldata) :
  answers this BasicZether publicClient accountData ->
  readBalanceWithOnchainData U accountData (this_privateKey this) = Some cur_b ->
  falsy (Some cur_b) = false ->
  BigInt amount = Ok amount' ->
  prover_answer U (witness_of U R this BasicZether accountData cur_b amount amount' o)
  = inr proof ->
  generateCalldata U (Zether.proof proof) (publicSignals proof) = inr calldata ->
  let c := write_of U this o amount'
             (flattenProof U (pA calldata) (pB calldata) (pC calldata)) in
  run U R this BasicZether publicClient account amount o
  = ((calls_before_check U this BasicZether publicClient accountData o
      ++ [ Prove (witness_of U R this BasicZether accountData cur_b amount amount' o);
           Write (Some account) c ])%list,
     match write BasicZether (Some account) c with
     | inl reason => Some (Reverted reason)
     | inr _ => None
     end).
Proof.
  intros Ha Hb Hf Hp Hr Hc c. subst c.
  destruct o as [ | receiver]; unfold run, burn, transfer;
    rewrite (ClientFacts.stimulateAccount_answers _ _ _ _ Ha); ClientFacts.step;
    rewrite Hb, (ClientFacts.require_balance_truthy _ Hf); ClientFacts.step.
  - cbn [witness_of prover_answer] in Hr. rewrite Hr. ClientFacts.step.
    rewrite Hc. ClientFacts.step. rewrite Hp. ClientFacts.step. cbn [write_of witness_of].
    destruct (write BasicZether _ _); reflexivity.
  - rewrite Hp. ClientFacts.step. cbn [witness_of write_of] in Hr |- *.
    destruct (createTransferInput U _ _ _ _) as [[C_send C_receive] D'].
    cbn [prover_answer] in Hr. ClientFacts.step. rewrite Hr. ClientFacts.step. rewrite Hc. ClientFacts.step.
    destruct (write BasicZether _ _); reflexivity.
Qed.

Lemma accepted_operation_submits_one_write_witness :
  answers demo_client (locked_contract sender) demo_publicClient
    ({| x := 20014; y := 0 |}, {| x := 2; y := 0 |})
  /\ BigInt "10000" = Ok 10000
  /\ snd (run (demo_ultis MAX32) demo_runtime demo_client (locked_contract sender)
            demo_publicClient stranger "10000" (Transfer receiver_key))
     = Some (Reverted "Not authorized")
  /\ filter is_write
       (fst (run (demo_ultis MAX32) demo_runtime demo_client (locked_contract sender)
               demo_publicClient stranger "10000" (Transfer receiver_key)))
     = [ Write (Some stranger)
           (W_transfer {| x := 7; y := 0 |} receiver_key {| x := -9923; y := 0 |}
              {| x := 10099; y := 0 |} {| x := 11; y := 0 |} [2; 2; 2]) ].
Proof.
  assert (Ha : answers demo_client (locked_contract sender) demo_publicClient
                 ({| x := 20014; y := 0 |}, {| x := 2; y := 0 |})).
  { split; [discriminate | exists []; reflexivity]. }
  split; [exact Ha | split; [reflexivity | ]].
  rewrite (accepted_operation_submits_one_write (demo_ultis MAX32) demo_runtime
             demo_client (locked_contract sender) demo_publicClient stranger
             "10000" _ (of_Z 20000) 10000 (Transfer receiver_key)
             {| proof := [2]; publicSignals := ["4294967295"; "3"] |}
             {| pA := [2]; pB := [2]; pC := [2] |}
             Ha eq_refl eq_refl eq_refl eq_refl eq_refl).
  split; reflexivity.
Defined.

(** X4.  An amount that is no integer literal is noticed at different
    places.  [transfer] reads it with [BigInt] before it builds the witness:
    it ends in [SyntaxError] with the prover never called.  [burn] hands the
    raw string to the prover first and reads it with [BigInt] only for the
    write: when the prover accepts, [burn] ends in [SyntaxError] after the
    proof was generated.  Neither submits anything. *)
Theorem malformed_amount_stops_transfer_before_and_burn_after_the_prover
    (U : Ultis) (R : Runtime) (this : Client) (BasicZether : MyZSCContract)
    (publicClient : PublicClient) (account : Account) (amount : string)
    (accountData : AccountData) (cur_b : number) :
  answers this BasicZether publicClient accountData ->
  readBalanceWithOnchainData U accountData (this_privateKey this) = Some cur_b ->
  falsy (Some cur_b) = false ->
  StringToBigInt amount = None ->
  (forall receiverPublicKey,
     run U R this BasicZether publicClient account amount (Transfer receiverPublicKey)
     = (calls_before_check U this BasicZether publicClient accountData
          (Transfer receiverPublicKey),
        Some SyntaxError))
  /\ (forall proof calldata,
        prover_answer U
          (witness_of U R this BasicZether accountData cur_b amount 0 Burn)
        = inr proof ->
        generateCalldata U (Zether.proof proof) (publicSignals proof) = inr calldata ->
        run U R this BasicZether publicClient account amount Burn
        = ((calls_before_check U this BasicZether publicClient accountData Burn
            ++ [ Prove (witness_of U R this BasicZether accountData cur_b amount 0
                          Burn) ])%list,
           Some SyntaxError)).
Proof.
  intros Ha Hb Hf Hp. split.
  - intro receiver. apply RunFacts.run_transfer_malformed with (cur_b := cur_b);
      assumption.
  - intros proof calldata Hr Hc.
    apply RunFacts.run_burn_malformed with (proof := proof) (calldata := calldata);
      assumption.
Qed.

Lemma malformed_amount_stops_transfer_before_and_burn_after_the_prover_witness :
  answers demo_client (demo_contract MAX32 20000) demo_publicClient
    ({| x := 20014; y := 0 |}, {| x := 2; y := 0 |})
  /\ StringToBigInt "1.5" = None
  /\ run (demo_ultis MAX32) demo_runtime demo_client (demo_contract MAX32 20000)
       demo_publicClient sender "1.5" (Transfer receiver_key)
     = (calls_before_check (demo_ultis MAX32) demo_client
          (demo_contract MAX32 20000) demo_publicClient
          ({| x := 20014; y := 0 |}, {| x := 2; y := 0 |}) (Transfer receiver_key),
        Some SyntaxError).
Proof.
  assert (Ha : answers demo_client (demo_contract MAX32 20000) demo_publicClient
                 ({| x := 20014; y := 0 |}, {| x := 2; y := 0 |})).
  { split; [discriminate | exists []; reflexivity]. }
  split; [exact Ha | split; [reflexivity | ]].
  exact (proj1 (malformed_amount_stops_transfer_before_and_burn_after_the_prover
                  (demo_ultis MAX32) demo_runtime demo_client
                  (demo_contract MAX32 20000) demo_publicClient sender "1.5" _
                  (of_Z 20000) Ha eq_refl eq_refl eq_refl) receiver_key).
Defined.

(** X5.  The [MAX] given to the constructor is never used: with the same
    account and any other [MAX], [burn], [transfer], [getCurrentBalance],
    [lock] and [fund] run the same.  The witness of [transfer] carries the
    [MAX] read from the ledger. *)
Theorem constructor_MAX_is_never_used
    (U : Ultis) (R : Runtime) (this : Client) (MAX' : Z)
    (BasicZether : MyZSCContract) (publicClient : PublicClient)
    (account : Account) (amount : string) (o : operation) (lockAddress : string) :
  run U R (with_MAX this MAX') BasicZether publicClient account amount o
  = run U R this BasicZether publicClient account amount o
  /\ getCurrentBalance U (with_MAX this MAX') BasicZether publicClient
     = getCurrentBalance U this BasicZether publicClient
  /\ lock U R (with_MAX this MAX') BasicZether account lockAddress
     = lock U R this BasicZether account lockAddress
  /\ fund R (with_MAX this MAX') BasicZether account amount
     = fund R this BasicZether account amount.
Proof. destruct o; repeat split. Qed.

(** ** The balance an operation works with *)

(** X6.  [burn] and [transfer] work with the balance [getCurrentBalance]
    reports: when [getCurrentBalance] returns a balance that is not falsy, the
    operation on the same ledger passes its check and hands the prover the
    witness built from that balance and the account entry read. *)
Theorem operation_proves_with_the_reported_balance
    (U : Ultis) (R : Runtime) (this : Client) (BasicZether : MyZSCContract)
    (publicClient : PublicClient) (account : Account) (amount : string)
    (b : number) (amount' : Z) (o : operation) :
  snd (getCurrentBalance U this BasicZether publicClient) = Ok (Some b) ->
  falsy (Some b) = false ->
  parses o amount amount' ->
  exists accountData rest,
    readBalanceWithOnchainData U accountData (this_privateKey this) = Some b
    /\ fst (run U R this BasicZether publicClient account amount o)
       = (calls_before_check U this BasicZether publicClient accountData o
          ++ Prove (witness_of U R this BasicZether accountData b amount amount' o)
             :: rest)%list.
Proof.
  intros Hg Hf Hp.
  unfold getCurrentBalance in Hg.
  destruct (stimulateAccount this BasicZether publicClient) as [t [d | e]] eqn:Es;
    ClientFacts.step; cbn [bind decode emit ret fst snd] in Hg; [ | discriminate Hg].
  assert (Ha : answers this BasicZether publicClient d).
  { apply RunFacts.stimulateAccount_Ok_answers. rewrite Es. reflexivity. }
  assert (Hb : readBalanceWithOnchainData U d (this_privateKey this) = Some b)
    by congruence.
  destruct (ClientFacts.run_proves U R this BasicZether publicClient account amount
              d b amount' o Ha Hb Hf Hp) as [rest Hrun].
  exists d, rest. split; assumption.
Qed.

Lemma operation_proves_with_the_reported_balance_witness :
  snd (getCurrentBalance (demo_ultis MAX32) demo_client (demo_contract MAX32 20000)
         demo_publicClient)
  = Ok (Some (of_Z 20000))
  /\ parses Burn "10000" 10000
  /\ exists accountData rest,
       readBalanceWithOnchainData (demo_ultis MAX32) accountData
         (this_privateKey demo_client) = Some (of_Z 20000)
       /\ fst (run (demo_ultis MAX32) demo_runtime demo_client
                 (demo_contract MAX32 20000) demo_publicClient sender "10000" Burn)
          = (calls_before_check (demo_ultis MAX32) demo_client
               (demo_contract MAX32 20000) demo_publicClient accountData Burn
             ++ Prove (witness_of (demo_ultis MAX32) demo_runtime demo_client
                         (demo_contract MAX32 20000) accountData (of_Z 20000)
                         "10000" 10000 Burn)
                :: rest)%list.
Proof.
  split; [reflexivity | split; [exact I | ]].
  exact (operation_proves_with_the_reported_balance (demo_ultis MAX32) demo_runtime
           demo_client (demo_contract MAX32 20000) demo_publicClient sender
           "10000" (of_Z 20000) 10000 Burn eq_refl eq_refl I).
Defined.

(** X7.  [getCurrentBalance] only reads: on every ledger it submits no write
    and calls no prover, and it decodes at most once. *)
Theorem getCurrentBalance_only_reads
    (U : Ultis) (this : Client) (BasicZether : MyZSCContract)
    (publicClient : PublicClient) :
  let t := fst (getCurrentBalance U this BasicZether publicClient) in
  writes t = [] /\ filter is_prove t = []
  /\ (List.length (filter is_decode t) <= 1)%nat.
Proof.
  cbv zeta. unfold getCurrentBalance, stimulateAccount. ClientFacts.step.
  unfold bigint_div.
  destruct (read_epochLength BasicZether =? 0); ClientFacts.step;
    [repeat split; simpl; lia | ].
  destruct (read_simulateAccounts BasicZether _ _); ClientFacts.step;
    repeat split; simpl; lia.
Qed.

(** X8.  [lock] and [fund] read nothing from the ledger, and when they end
    in an error of the client's side (an address [getAddress] rejects, an
    amount [parseEther] rejects) nothing at all was sent. *)
Theorem lock_and_fund_send_nothing_on_a_local_error
    (U : Ultis) (R : Runtime) (this : Client) (BasicZether : MyZSCContract)
    (account : Account) (lockAddress amount : string) (e : error) :
  local_error e = true ->
  (snd (lock U R this BasicZether account lockAddress) = Throw e ->
   fst (lock U R this BasicZether account lockAddress) = [])
  /\ (snd (fund R this BasicZether account amount) = Throw e ->
      fst (fund R this BasicZether account amount) = [])
  /\ filter is_read (fst (lock U R this BasicZether account lockAddress)) = []
  /\ filter is_read (fst (fund R this BasicZether account amount)) = [].
Proof.
  intro Hl. unfold lock, fund.
  destruct (getAddress R lockAddress) as [la | e1]; ClientFacts.step.
  2: { destruct (parseEther R amount) as [v | e2]; ClientFacts.step;
       [ | repeat split].
       destruct (write BasicZether _ _); cbn; repeat split; try discriminate.
       intro H. injection H as <-. discriminate Hl. }
  destruct (getAddress R (address BasicZether)) as [ca | e2]; ClientFacts.step.
  2: { destruct (parseEther R amount) as [v | e3]; ClientFacts.step;
       [ | repeat split].
       destruct (write BasicZether _ _); cbn; repeat split; try discriminate.
       intro H. injection H as <-. discriminate Hl. }
  destruct (getAddress R la) as [la' | e3]; ClientFacts.step.
  2: { destruct (parseEther R amount) as [v | e4]; ClientFacts.step;
       [ | repeat split].
       destruct (write BasicZether _ _); cbn; repeat split; try discriminate.
       intro H. injection H as <-. discriminate Hl. }
  destruct (schnorrChallenge U _ _ _ _) as [c s]. ClientFacts.step.
  destruct (parseEther R amount) as [v | e4]; ClientFacts.step;
    destruct (write BasicZether (Some account) (W_lock _ _ _ _)); cbn;
    try destruct (write BasicZether (Some account) (W_fund _ _)); cbn;
    repeat split; try discriminate;
    intro H; injection H as <-; discriminate Hl.
Qed.

Lemma lock_and_fund_send_nothing_on_a_local_error_witness :
  local_error (Error "invalid address") = true
  /\ snd (lock (demo_ultis MAX32) demo_runtime demo_client
            (demo_contract MAX32 20000) sender "0x1234")
     = Throw (Error "invalid address")
  /\ fst (lock (demo_ultis MAX32) demo_runtime demo_client
            (demo_contract MAX32 20000) sender "0x1234")
     = [].
Proof.
  split; [reflexivity | split; [reflexivity | ]].
  exact (proj1 (lock_and_fund_send_nothing_on_a_local_error (demo_ultis MAX32)
                  demo_runtime demo_client (demo_contract MAX32 20000) sender
                  "0x1234" "1" (Error "invalid address") eq_refl) eq_refl).
Defined.

(** ** More on [toUnitsByDecimals] *)

(** X9.  With a negative [decimals] every string and every number makes
    [toUnitsByDecimals] throw [RangeError] (the zeros cannot be repeated),
    while a bigint still comes back unchanged. *)
Theorem toUnitsByDecimals_negative_decimals
    (other : number -> string) (decimals : Z) (s : string) (n : number) (z : Z) :
  decimals < 0 ->
  toUnitsByDecimals other (AString s) decimals = Throw RangeError
  /\ toUnitsByDecimals other (ANumber n) decimals = Throw RangeError
  /\ toUnitsByDecimals other (ABigint z) decimals = Ok z.
Proof.
  intro H. cbn [toUnitsByDecimals]. unfold toUnitsByDecimals_string, repeat.
  cbv zeta.
  replace (decimals <? 0) with true by (symmetry; apply Z.ltb_lt; exact H).
  repeat split.
Qed.

Lemma toUnitsByDecimals_negative_decimals_witness :
  -1 < 0
  /\ toUnitsByDecimals (fun _ => "") (AString "12.5") (-1) = Throw RangeError.
Proof.
  split; [lia | ].
  exact (proj1 (toUnitsByDecimals_negative_decimals (fun _ => "") (-1) "12.5"
                  (of_Z 1) 1 ltac:(lia))).
Defined.

(** X10.  The conversion cuts the fraction and never rounds: on digits with
    a fraction the result is the floor of the written value times
    [10 ^ decimals], that is, all the digits as one integer, times
    [10 ^ decimals], divided by ten to the number of fraction digits. *)
Theorem toUnitsByDecimals_is_the_floor
    (other : number -> string) (decimals : Z) (intPart frac : string) :
  is_digits intPart = true -> is_digits frac = true -> 0 <= decimals ->
  toUnitsByDecimals other (AString (intPart ++ String "." frac)) decimals
  = Ok ((decimal_value (intPart ++ frac) * 10 ^ decimals)
        / 10 ^ Z.of_nat (String.length frac)).
Proof.
  intros Hi Hf Hd. cbn [toUnitsByDecimals].
  rewrite (StringFacts.toUnitsByDecimals_string_fraction _ _ _ Hi Hf Hd).
  rewrite (DecimalFacts.decimal_value_fit _ _ _ Hf), Z2Nat.id by exact Hd.
  reflexivity.
Qed.

Lemma toUnitsByDecimals_is_the_floor_witness :
  (is_digits "0" = true /\ is_digits "99999" = true /\ 0 <= 4)
  /\ toUnitsByDecimals (fun _ => "") (AString "0.99999") 4 = Ok 9999.
Proof.
  split; [repeat split; lia | ].
  exact (toUnitsByDecimals_is_the_floor (fun _ => "") 4 "0" "99999"
           eq_refl eq_refl ltac:(lia)).
Defined.

(** X11.  Only the first two parts of a string are looked at: whatever
    follows a second point is ignored. *)
Theorem toUnitsByDecimals_ignores_after_second_point
    (other : number -> string) (decimals : Z) (intPart frac rest : string) :
  is_digits intPart = true -> is_digits frac = true -> 0 <= decimals ->
  toUnitsByDecimals other
    (AString (intPart ++ String "." (frac ++ String "." rest))) decimals
  = toUnitsByDecimals other (AString (intPart ++ String "." frac)) decimals.
Proof.
  intros Hi Hf Hd. cbn [toUnitsByDecimals].
  destruct (DecimalFacts.split_two_parts intPart frac rest Hi Hf) as [H0 H1].
  rewrite (StringFacts.toUnitsByDecimals_string_parts _ _ _ _ H0 H1 Hi Hf Hd).
  rewrite (StringFacts.toUnitsByDecimals_string_fraction _ _ _ Hi Hf Hd).
  reflexivity.
Qed.

Lemma toUnitsByDecimals_ignores_after_second_point_witness :
  (is_digits "1" = true /\ is_digits "2" = true /\ 0 <= 2)
  /\ toUnitsByDecimals (fun _ => "") (AString "1.2.x9") 2
     = toUnitsByDecimals (fun _ => "") (AString "1.2") 2.
Proof.
  split; [repeat split; lia | ].
  exact (toUnitsByDecimals_ignores_after_second_point (fun _ => "") 2 "1" "2" "x9"
           eq_refl eq_refl ltac:(lia)).
Defined.

(** X12.  A minus sign is kept: a negative decimal string with at least one
    integer digit gives the negation of what the string without the sign
    gives. *)
Theorem toUnitsByDecimals_keeps_the_sign
    (other : number -> string) (decimals : Z) (intPart frac : string) :
  is_digits intPart = true -> is_digits frac = true -> 0 <= decimals ->
  intPart <> "" ->
  exists v,
    toUnitsByDecimals other (AString (intPart ++ String "." frac)) decimals = Ok v
    /\ toUnitsByDecimals other (AString (String "-" (intPart ++ String "." frac)))
         decimals
       = Ok (- v)
    /\ 0 <= v.
Proof.
  intros Hi Hf Hd Hne. eexists. cbn [toUnitsByDecimals].
  split; [apply StringFacts.toUnitsByDecimals_string_fraction; assumption | ].
  split.
  - destruct (DecimalFacts.split_minus (intPart ++ String "." frac)) as [H0 H1].
    rewrite (StringFacts.split_digits_dot _ _ Hi), (StringFacts.split_digits _ Hf)
      in H0, H1.
    cbn [nth] in H0, H1.
    apply DecimalFacts.toUnitsByDecimals_string_parts_minus; assumption.
  - apply StringFacts.decimal_acc_nonneg; [ | lia].
    rewrite StringFacts.is_digits_app, Hi, StringFacts.is_digits_fit by exact Hf.
    reflexivity.
Qed.

Lemma toUnitsByDecimals_keeps_the_sign_witness :
  (is_digits "1" = true /\ is_digits "5" = true /\ 0 <= 4 /\ "1" <> "")
  /\ toUnitsByDecimals (fun _ => "") (AString "-1.5") 4 = Ok (-15000).
Proof.
  split; [repeat split; try lia; discriminate | ].
  destruct (toUnitsByDecimals_keeps_the_sign (fun _ => "") 4 "1" "5"
              eq_refl eq_refl ltac:(lia) ltac:(discriminate))
    as (v & H1 & H2 & _).
  vm_compute in H1. injection H1 as <-. exact H2.
Defined.

(** X13.  A number and the bigint of the same value are treated
    differently: the number [n], an integer of magnitude at most [2^53], is
    scaled to [n * 10 ^ decimals], the bigint [n] is returned as [n]. *)
Theorem toUnitsByDecimals_scales_numbers_not_bigints
    (other : number -> string) (decimals n : Z) :
  Z.abs n <= 2 ^ 53 -> 0 <= decimals ->
  toUnitsByDecimals other (ANumber (of_Z n)) decimals = Ok (n * 10 ^ decimals)
  /\ toUnitsByDecimals other (ABigint n) decimals = Ok n.
Proof.
  intros Hn Hd. split; [ | reflexivity]. cbn [toUnitsByDecimals].
  rewrite (SignedFloatFacts.Number_toString_of_Z_signed other n Hn).
  destruct n as [ | p | p].
  - apply (StringFacts.toUnitsByDecimals_string_integer "0" decimals eq_refl Hd).
  - destruct (DecimalFacts.Z_to_string_digits (Zpos p) ltac:(lia)) as (H1 & H2 & _).
    rewrite (StringFacts.toUnitsByDecimals_string_integer _ _ H1 Hd), H2.
    reflexivity.
  - destruct (DecimalFacts.Z_to_string_digits (Zpos p) ltac:(lia)) as (H1 & H2 & H3).
    change (Z_to_string (Zneg p)) with (String "-" (Z_to_string (Zpos p))).
    destruct (DecimalFacts.split_minus (Z_to_string (Zpos p))) as [H0 H0'].
    rewrite (StringFacts.split_digits _ H1) in H0, H0'. cbn [nth] in H0, H0'.
    rewrite (DecimalFacts.toUnitsByDecimals_string_parts_minus _ _ _ _ H0 H0' H1
               eq_refl Hd H3).
    rewrite StringFacts.decimal_value_app, StringFacts.length_fit,
      StringFacts.decimal_value_zeros, H2, Z2Nat.id by lia.
    f_equal. lia.
Qed.

Lemma toUnitsByDecimals_scales_numbers_not_bigints_witness :
  (Z.abs 2 <= 2 ^ 53 /\ 0 <= 4)
  /\ toUnitsByDecimals (fun _ => "") (ANumber (of_Z 2)) 4 = Ok (2 * 10 ^ 4)
  /\ toUnitsByDecimals (fun _ => "") (ABigint 2) 4 = Ok 2.
Proof.
  split; [split; simpl; lia | ].
  exact (toUnitsByDecimals_scales_numbers_not_bigints (fun _ => "") 4 2
           ltac:(simpl; lia) ltac:(lia)).
Defined.

(** ** The helper of the test suites *)

(** X14.  From any block height that is not negative,
    [increaseToNextEpoch] mines between 1 and 20 blocks and stops on the first
    block of the next epoch: the new height is a multiple of the epoch length,
    and [stimulateAccount] on a ledger with that epoch length then asks for
    the epoch after the one it asked for before. *)
Theorem increaseToNextEpoch_reaches_the_next_epoch
    (this : Client) (BasicZether : MyZSCContract) (publicClient : PublicClient) :
  0 <= getBlockNumber publicClient ->
  read_epochLength BasicZether = EPOCH_LENGTH ->
  let before := getBlockNumber publicClient in
  let after := getBlockNumber (increaseToNextEpoch publicClient) in
  before < after <= before + EPOCH_LENGTH
  /\ Z.rem after EPOCH_LENGTH = 0
  /\ fst (stimulateAccount this BasicZether (increaseToNextEpoch publicClient))
     = [ Read R_epochLength; Read R_getBlockNumber;
         Read (R_simulateAccounts [this_publicKey this]
                 (Z.quot before EPOCH_LENGTH + 1)) ].
Proof.
  intros Hbn Hel before after. subst before after.
  unfold increaseToNextEpoch, mine, EPOCH_LENGTH in *. cbv zeta.
  set (bn := getBlockNumber publicClient) in *.
  rewrite Z.rem_mod_nonneg by lia.
  pose proof (Z.mod_pos_bound bn 20 ltac:(lia)) as Hm.
  rewrite FloatFacts.to_Z_of_Z by lia.
  cbn [getBlockNumber].
  pose proof (Z.div_mod bn 20 ltac:(lia)) as Hdm.
  assert (Hnew : bn + (20 - bn mod 20) = 20 * (bn / 20 + 1)) by lia.
  split; [lia | split].
  - rewrite Hnew, Z.rem_mod_nonneg, Z.mul_comm, Z.mod_mul by lia. reflexivity.
  - unfold stimulateAccount. ClientFacts.step. unfold bigint_div.
    rewrite Hel. cbn [Z.eqb]. ClientFacts.step.
    assert (Hq : 0 <= bn / 20) by (apply Z.div_pos; lia).
    cbn [getBlockNumber]. rewrite Hnew.
    rewrite (Z.quot_div_nonneg (20 * (bn / 20 + 1)) 20) by lia.
    rewrite (Z.mul_comm 20), Z.div_mul by lia.
    rewrite (Z.quot_div_nonneg bn 20) by lia.
    destruct (read_simulateAccounts BasicZether _ _); reflexivity.
Qed.

Lemma increaseToNextEpoch_reaches_the_next_epoch_witness :
  0 <= getBlockNumber demo_publicClient
  /\ read_epochLength (demo_contract MAX32 20000) = EPOCH_LENGTH
  /\ getBlockNumber demo_publicClient = 45
  /\ Z.rem (getBlockNumber (increaseToNextEpoch demo_publicClient)) EPOCH_LENGTH = 0.
Proof.
  split; [simpl; lia | split; [reflexivity | split; [reflexivity | ]]].
  exact (proj1 (proj2 (increaseToNextEpoch_reaches_the_next_epoch demo_client
                         (demo_contract MAX32 20000) demo_publicClient
                         ltac:(simpl; lia) eq_refl))).
Defined.

(** ** What the witnesses carry *)

(** X15.  [transfer] does not compare the amount with the balance: for a
    balance [b] and an amount [a] up to [2^53], also when [a] exceeds [b], the
    witness handed to the prover carries the exact signed difference [b - a]
    as its remainder, a negative number on an overdraw, and [BigInt] reads it
    back. *)
Theorem transfer_remainder_is_the_signed_difference
    (U : Ultis) (R : Runtime) (this : Client) (BasicZether : MyZSCContract)
    (publicClient : PublicClient) (account : Account) (amount : string)
    (receiverPublicKey : SolidityPointInput) (accountData : AccountData)
    (a b : Z) :
  answers this BasicZether publicClient accountData ->
  readBalanceWithOnchainData U accountData (this_privateKey this) = Some (of_Z b) ->
  BigInt amount = Ok a ->
  0 <= a <= 2 ^ 53 -> 0 < b <= 2 ^ 53 ->
  exists i rest,
    fst (run U R this BasicZether publicClient account amount
           (Transfer receiverPublicKey))
    = (calls_before_check U this BasicZether publicClient accountData
         (Transfer receiverPublicKey)
       ++ Prove (TransferWitness i) :: rest)%list
    /\ sAmount i = amount
    /\ bRem i = Z_to_string (b - a)
    /\ BigInt (bRem i) = Ok (b - a).
Proof.
  intros Ha Hb Hp Ha53 Hb53.
  assert (Hrem : remainAmount R (of_Z b) amount = of_Z (b - a)).
  { unfold remainAmount, Number. unfold BigInt in Hp.
    destruct (StringToBigInt amount) as [z | ]; [ | discriminate Hp].
    injection Hp as ->. apply SignedFloatFacts.sub_exact_signed; lia. }
  assert (Hf : falsy (Some (of_Z b)) = false).
  { destruct b as [ | vb | vb]; try lia.
    destruct (FloatFacts.canon_exists vb ltac:(lia)) as [wb Hwb].
    rewrite (FloatFacts.of_Z_canon vb wb ltac:(lia) Hwb). reflexivity. }
  destruct (ClientFacts.run_proves U R this BasicZether publicClient account amount
              accountData (of_Z b) a (Transfer receiverPublicKey) Ha Hb Hf Hp)
    as [rest Hrun].
  cbn [witness_of] in Hrun.
  destruct (createTransferInput U _ _ _ _) as [[C_send C_receive] D'].
  eexists. exists rest. split; [exact Hrun | ]. cbn [bRem sAmount].
  split; [reflexivity | ].
  rewrite Hrem, SignedFloatFacts.Number_toString_of_Z_signed by lia.
  split; [reflexivity | apply DecimalFacts.BigInt_Z_to_string].
Qed.

Lemma transfer_remainder_is_the_signed_difference_witness :
  answers demo_client (demo_contract MAX32 20000) demo_publicClient
    ({| x := 20014; y := 0 |}, {| x := 2; y := 0 |})
  /\ BigInt "30000" = Ok 30000
  /\ (0 <= 30000 <= 2 ^ 53 /\ 0 < 20000 <= 2 ^ 53)
  /\ exists i rest,
       fst (run (demo_ultis MAX32) demo_runtime demo_client
              (demo_contract MAX32 20000) demo_publicClient sender "30000"
              (Transfer receiver_key))
       = (calls_before_check (demo_ultis MAX32) demo_client
            (demo_contract MAX32 20000) demo_publicClient
            ({| x := 20014; y := 0 |}, {| x := 2; y := 0 |}) (Transfer receiver_key)
          ++ Prove (TransferWitness i) :: rest)%list
       /\ sAmount i = "30000"
       /\ bRem i = Z_to_string (20000 - 30000)
       /\ BigInt (bRem i) = Ok (20000 - 30000).
Proof.
  assert (Ha : answers demo_client (demo_contract MAX32 20000) demo_publicClient
                 ({| x := 20014; y := 0 |}, {| x := 2; y := 0 |})).
  { split; [discriminate | exists []; reflexivity]. }
  split; [exact Ha | split; [reflexivity | split; [lia | ]]].
  exact (transfer_remainder_is_the_signed_difference (demo_ultis MAX32)
           demo_runtime demo_client (demo_contract MAX32 20000) demo_publicClient
           sender "30000" receiver_key _ 30000 20000 Ha eq_refl eq_refl
           ltac:(lia) ltac:(lia)).
Defined.

(** X16.  The numbers [burn] writes into its witness as strings lose
    nothing: read back with [BigInt], the key is the private key, the counter
    is the counter the ledger reported for the hash of the public key, and the
    balance, an integer up to [2^53], is the decoded balance; the amount is
    the caller's string as given. *)
Theorem burn_witness_numbers_read_back
    (U : Ultis) (R : Runtime) (this : Client) (BasicZether : MyZSCContract)
    (publicClient : PublicClient) (account : Account) (amount : string)
    (accountData : AccountData) (b : Z) :
  answers this BasicZether publicClient accountData ->
  readBalanceWithOnchainData U accountData (this_privateKey this) = Some (of_Z b) ->
  0 < b <= 2 ^ 53 ->
  exists i rest,
    fst (run U R this BasicZether publicClient account amount Burn)
    = (calls_before_check U this BasicZether publicClient accountData Burn
       ++ Prove (BurnWitness i) :: rest)%list
    /\ burn_b i = amount
    /\ BigInt (burn_sk i) = Ok (this_privateKey this)
    /\ BigInt (burn_cur_b i) = Ok b
    /\ BigInt (burn_counter i)
       = Ok (read_counter BasicZether (calculatePublicKeyHash U (this_publicKey this))).
Proof.
  intros Ha Hb Hb53.
  assert (Hf : falsy (Some (of_Z b)) = false).
  { destruct b as [ | vb | vb]; try lia.
    destruct (FloatFacts.canon_exists vb ltac:(lia)) as [wb Hwb].
    rewrite (FloatFacts.of_Z_canon vb wb ltac:(lia) Hwb). reflexivity. }
  destruct (ClientFacts.run_proves U R this BasicZether publicClient account amount
              accountData (of_Z b) 0 Burn Ha Hb Hf I)
    as [rest Hrun].
  cbn [witness_of] in Hrun.
  eexists. exists rest. split; [exact Hrun | ].
  cbn [burn_b burn_sk burn_cur_b burn_counter].
  rewrite FloatFacts.Number_toString_of_Z by lia.
  repeat split; apply DecimalFacts.BigInt_Z_to_string.
Qed.

Lemma burn_witness_numbers_read_back_witness :
  answers demo_client (demo_contract MAX32 20000) demo_publicClient
    ({| x := 20014; y := 0 |}, {| x := 2; y := 0 |})
  /\ 0 < 20000 <= 2 ^ 53
  /\ exists i rest,
       fst (run (demo_ultis MAX32) demo_runtime demo_client
              (demo_contract MAX32 20000) demo_publicClient sender "10000" Burn)
       = (calls_before_check (demo_ultis MAX32) demo_client
            (demo_contract MAX32 20000) demo_publicClient
            ({| x := 20014; y := 0 |}, {| x := 2; y := 0 |}) Burn
          ++ Prove (BurnWitness i) :: rest)%list
       /\ burn_b i = "10000"
       /\ BigInt (burn_sk i) = Ok (this_privateKey demo_client)
       /\ BigInt (burn_cur_b i) = Ok 20000
       /\ BigInt (burn_counter i)
          = Ok (read_counter (demo_contract MAX32 20000)
                  (calculatePublicKeyHash (demo_ultis MAX32)
                     (this_publicKey demo_client))).
Proof.
  assert (Ha : answers demo_client (demo_contract MAX32 20000) demo_publicClient
                 ({| x := 20014; y := 0 |}, {| x := 2; y := 0 |})).
  { split; [discriminate | exists []; reflexivity]. }
  split; [exact Ha | split; [lia | ]].
  exact (burn_witness_numbers_read_back (demo_ultis MAX32) demo_runtime demo_client
           (demo_contract MAX32 20000) demo_publicClient sender "10000" _ 20000
           Ha eq_refl ltac:(lia)).
Defined.

(** X17.  The numbers [transfer] writes into its witness as strings lose
    nothing either: read back with [BigInt], the key is the private key, the
    blinding scalar is the one drawn, [MAX] is the ledger's [MAX] and the
    counter is the ledger's counter for the hash of the public key.  The
    points of the witness are those of [createTransferInput] for
    [BigInt(amount)] and that scalar, the same the write would carry. *)
Theorem transfer_witness_numbers_read_back
    (U : Ultis) (R : Runtime) (this : Client) (BasicZether : MyZSCContract)
    (publicClient : PublicClient) (account : Account) (amount : string)
    (receiverPublicKey : SolidityPointInput) (accountData : AccountData)
    (cur_b : number) (amount' : Z) :
  answers this BasicZether publicClient accountData ->
  readBalanceWithOnchainData U accountData (this_privateKey this) = Some cur_b ->
  falsy (Some cur_b) = false ->
  BigInt amount = Ok amount' ->
  exists i rest,
    fst (run U R this BasicZether publicClient account amount
           (Transfer receiverPublicKey))
    = (calls_before_check U this BasicZether publicClient accountData
         (Transfer receiverPublicKey)
       ++ Prove (TransferWitness i) :: rest)%list
    /\ BigInt (sk i) = Ok (this_privateKey this)
    /\ BigInt (r i) = Ok (randomBabyJubScalar U true)
    /\ BigInt (MAX_ i) = Ok (read_MAX BasicZether)
    /\ BigInt (counter i)
       = Ok (read_counter BasicZether (calculatePublicKeyHash U (this_publicKey this)))
    /\ (let '(C_send, C_receive, D') :=
          createTransferInput U
            (convertToBabyJubPoints U (this_publicKey this))
            (convertToBabyJubPoints U receiverPublicKey)
            amount' (randomBabyJubScalar U true) in
        CS i = convertToBabyJubPointsArrayString U C_send
        /\ CRe i = convertToBabyJubPointsArrayString U C_receive
        /\ D i = convertToBabyJubPointsArrayString U D').
Proof.
  intros Ha Hb Hf Hp.
  destruct (ClientFacts.run_proves U R this BasicZether publicClient account amount
              accountData cur_b amount' (Transfer receiverPublicKey) Ha Hb Hf Hp)
    as [rest Hrun].
  cbn [witness_of] in Hrun.
  destruct (createTransferInput U _ _ _ _) as [[C_send C_receive] D'].
  eexists. exists rest. split; [exact Hrun | ].
  cbn [sk r MAX_ counter CS CRe D].
  repeat split; apply DecimalFacts.BigInt_Z_to_string.
Qed.

Lemma transfer_witness_numbers_read_back_witness :
  answers demo_client (demo_contract MAX32 20000) demo_publicClient
    ({| x := 20014; y := 0 |}, {| x := 2; y := 0 |})
  /\ BigInt "10000" = Ok 10000
  /\ exists i rest,
       fst (run (demo_ultis MAX32) demo_runtime demo_client
              (demo_contract MAX32 20000) demo_publicClient sender "10000"
              (Transfer receiver_key))
       = (calls_before_check (demo_ultis MAX32) demo_client
            (demo_contract MAX32 20000) demo_publicClient
            ({| x := 20014; y := 0 |}, {| x := 2; y := 0 |}) (Transfer receiver_key)
          ++ Prove (TransferWitness i) :: rest)%list
       /\ BigInt (MAX_ i) = Ok (read_MAX (demo_contract MAX32 20000)).
Proof.
  assert (Ha : answers demo_client (demo_contract MAX32 20000) demo_publicClient
                 ({| x := 20014; y := 0 |}, {| x := 2; y := 0 |})).
  { split; [discriminate | exists []; reflexivity]. }
  split; [exact Ha | split; [reflexivity | ]].
  destruct (transfer_witness_numbers_read_back (demo_ultis MAX32) demo_runtime
              demo_client (demo_contract MAX32 20000) demo_publicClient sender
              "10000" receiver_key _ (of_Z 20000) 10000 Ha eq_refl eq_refl eq_refl)
    as (i & rest & H1 & _ & _ & H4 & _).
  exists i, rest. split; assumption.
Defined.
